(** * sense_plot.py: log2(TPM + 1) normalisation and the expression dashboard

    A shallow embedding of [DATA/counts_diffexpress/all_genes/sense_plot.py].

    Numbers.  The script computes in IEEE doubles; the embedding idealises
    them: the arithmetic up to the TPM table is carried out on exact
    rationals ([Q], executable), and the logarithm, the mean and the standard
    deviation are real numbers ([R]).  Division by zero, which NumPy answers
    with [inf] or [NaN], is outside this idealisation; the theorems about
    values carry the hypotheses that exclude it.

    Tables.  A pandas frame is kept column-major, as pandas keeps it: a list
    of labelled columns.  The frames the script handles all have the
    featureCounts layout, so that layout is the type [DataFrame]. *)

From Stdlib Require Import List String Ascii ZArith QArith Qreals Reals Lra Lia.
From Stdlib Require Import Sorting.Sorted Sorting.Permutation.
From stdpp Require Import base option list gmap strings.
Import ListNotations.

Open Scope string_scope.

(* ================================================================== *)
(** ** Frames *)

(** A labelled column, and a frame as the list of its columns in order. *)
Abbreviation Column A := (string * list A)%type (only parsing).
Abbreviation Frame A := (list (string * list A)) (only parsing).

(** The frame [pd.read_csv] gives for a featureCounts table.  Columns 0-5
    are [Geneid], [Chr], [Start], [End], [Strand], [Length]; of these the
    script reads only [Geneid] and [Length].  [counts] is [df.iloc[:, 6:]]:
    the sample columns with their labels.  Gene identifiers are text: a
    [Geneid] column that pandas reads as numbers, as truth values or with
    missing values is outside the embedding. *)
Record DataFrame : Type := mkDataFrame {
  Geneid : list string;
  Length : list Q;
  counts : Frame Q
}.

(** The value of [calculate_log2_tpm]: column 0 is [Geneid], the others are
    the sample columns of log2 values. *)
Record Log2Frame : Type := mkLog2Frame {
  l2_Geneid : list string;
  l2_samples : Frame R
}.

(** Every column of a pandas frame has the frame's number of rows. *)
Definition rectangular (df : DataFrame) : Prop :=
  length (Geneid df) = length (Length df) /\
  Forall (fun c : Column Q => length (snd c) = length (Length df)) (counts df).

(** [f.iloc[i, j]] on the sample columns. *)
Definition cell {A : Type} (f : Frame A) (j i : nat) : option A :=
  match f !! j with
  | Some c => snd c !! i
  | None => None
  end.

(** Two columns are equal when they have the same label and their entries
    are equal as numbers (a rational has many representations: [1 # 2] and
    [2 # 4]). *)
Definition column_equal (c1 c2 : Column Q) : Prop :=
  fst c1 = fst c2 /\ Forall2 Qeq (snd c1) (snd c2).

(* ------------------------------------------------------------------ *)
(** *** The pandas and NumPy operations used by [calculate_log2_tpm] *)

(** [s / k] for a series and a scalar. *)
Definition series_div_scalar (s : list Q) (k : Q) : list Q :=
  map (fun v => (v / k)%Q) s.

(** [f.div(s, axis=0)]: every column is divided, row by row, by [s]. *)
Definition frame_div_axis0 (f : Frame Q) (s : list Q) : Frame Q :=
  map (fun c : Column Q => (fst c, zip_with Qdiv (snd c) s)) f.

Definition Qsum (l : list Q) : Q := fold_right Qplus 0%Q l.

(** [f.sum(axis=0)]: the series of column sums, indexed by the labels. *)
Definition frame_sum_axis0 (f : Frame Q) : list (string * Q) :=
  map (fun c : Column Q => (fst c, Qsum (snd c))) f.

(** [s / k] for the labelled series of column sums. *)
Definition labelled_div_scalar (s : list (string * Q)) (k : Q)
  : list (string * Q) :=
  map (fun e : string * Q => (fst e, (snd e / k)%Q)) s.

(** [f.div(s, axis=1)]: column [j] is divided by the entry of [s] for it.
    [s] is indexed by the columns of [f] itself, so pandas pairs them off
    in order. *)
Definition frame_div_axis1 (f : Frame Q) (s : list (string * Q)) : Frame Q :=
  zip_with (fun (c : Column Q) (e : string * Q) =>
              (fst c, series_div_scalar (snd c) (snd e))) f s.

(** [f + k]. *)
Definition frame_add_scalar (f : Frame Q) (k : Q) : Frame Q :=
  map (fun c : Column Q => (fst c, map (fun v => (v + k)%Q) (snd c))) f.

(** The base-2 logarithm of a real, and [np.log2] on a frame. *)
Definition Rlog2 (x : R) : R := (ln x / ln 2)%R.

Definition np_log2 (f : Frame Q) : Frame R :=
  map (fun c : Column Q => (fst c, map (fun v => Rlog2 (Q2R v)) (snd c))) f.

(* ------------------------------------------------------------------ *)
(** *** [calculate_log2_tpm] *)

(** Step 1 of the function: [rpk = counts.div(lengths / 1000, axis=0)]. *)
Definition rpk_table (df : DataFrame) : Frame Q :=
  frame_div_axis0 (counts df) (series_div_scalar (Length df) 1000).

(** Step 2: [scaling_factors] and [tpm]. *)
Definition scaling_factors (df : DataFrame) : list (string * Q) :=
  labelled_div_scalar (frame_sum_axis0 (rpk_table df)) 1000000.

Definition tpm_table (df : DataFrame) : Frame Q :=
  frame_div_axis1 (rpk_table df) (scaling_factors df).

Definition calculate_log2_tpm (df : DataFrame) : Log2Frame :=
  let gene_ids := Geneid df in
  let lengths := Length df in
  let counts := counts df in
  let rpk := frame_div_axis0 counts (series_div_scalar lengths 1000) in
  let scaling_factors :=
    labelled_div_scalar (frame_sum_axis0 rpk) 1000000 in
  let tpm := frame_div_axis1 rpk scaling_factors in
  let log2_tpm := np_log2 (frame_add_scalar tpm 1) in
  {| l2_Geneid := gene_ids; l2_samples := log2_tpm |}.

(** The same quantities in the words of the specification, on the reals:
    reads per kilobase (count divided by length/1000), their sum over a
    sample, and transcripts per million. *)
Definition Rsum (l : list R) : R := fold_right Rplus 0%R l.

Definition spec_rpk (count len : Q) : R :=
  (Q2R count / (Q2R len / 1000))%R.

Definition spec_rpk_sum (col lens : list Q) : R :=
  Rsum (zip_with spec_rpk col lens).

Definition spec_tpm (col lens : list Q) (count len : Q) : R :=
  (spec_rpk count len / (spec_rpk_sum col lens / 1000000))%R.

(** No gene length is zero; no sample has a zero sum of reads per
    kilobase. *)
Definition lengths_nonzero (df : DataFrame) : bool :=
  forallb (fun l => negb (Qeq_bool l 0)) (Length df).

Definition rpk_sums_nonzero (df : DataFrame) : bool :=
  forallb (fun e : string * Q => negb (Qeq_bool (snd e) 0))
          (frame_sum_axis0 (rpk_table df)).

(* ================================================================== *)
(** ** Exceptions *)

(** Python exceptions the script can end with. *)
Inductive exn : Type :=
  | FileNotFoundError | EmptyDataError | ParserError | KeyError | TypeError
  | ValueError | IndexError | OverflowError.

Inductive Result (A : Type) : Type :=
  | Ok (a : A)
  | Raise (e : exn).
Arguments Ok {A} a.
Arguments Raise {A} e.

(* ================================================================== *)
(** ** [calculate_log2_tpm] on objects *)

(** In Python a frame or a series is an object: a variable holds a
    reference to it, an operation such as [div] or [sum] returns a new
    object, and [insert] changes the frame it is called on.  The objects
    [calculate_log2_tpm] handles, by kind. *)
Inductive object : Type :=
  | ODataFrame (df : DataFrame)
  | OText (s : list string)
  | ONumbers (s : list Q)
  | OLabelled (s : list (string * Q))
  | OFrame (f : Frame Q)
  | OLog2 (ids : option (list string)) (f : Frame R).

(** The objects alive, by reference: a new object gets the next
    reference. *)
Abbreviation heap := (list object) (only parsing).

Definition Py (A : Type) : Type := heap -> Result A * heap.

Definition py_ret {A : Type} (a : A) : Py A := fun h => (Ok a, h).

Definition py_bind {A B : Type} (m : Py A) (k : A -> Py B) : Py B :=
  fun h =>
    match m h with
    | (Ok a, h') => k a h'
    | (Raise e, h') => (Raise e, h')
    end.

Global Instance Py_ret : MRet Py := @py_ret.
Global Instance Py_bind : MBind Py := fun A B k m => py_bind m k.

Definition py_raise {A : Type} (e : exn) : Py A := fun h => (Raise e, h).

Definition new (o : object) : Py nat :=
  fun h => (Ok (length h), (h ++ [o])%list).

Definition deref (r : nat) : Py object :=
  fun h =>
    match h !! r with
    | Some o => (Ok o, h)
    | None => (Raise KeyError, h)
    end.

Definition assign (r : nat) (o : object) : Py unit :=
  fun h => (Ok tt, <[r := o]> h).

(** [df['Geneid']], [df['Length']] and [df.iloc[:, 6:]]. *)
Definition getitem_Geneid (df : nat) : Py nat :=
  o ← deref df;
  match o with
  | ODataFrame d => new (OText (Geneid d))
  | _ => py_raise TypeError
  end.

Definition getitem_Length (df : nat) : Py nat :=
  o ← deref df;
  match o with
  | ODataFrame d => new (ONumbers (Length d))
  | _ => py_raise TypeError
  end.

Definition iloc_columns_from_6 (df : nat) : Py nat :=
  o ← deref df;
  match o with
  | ODataFrame d => new (OFrame (counts d))
  | _ => py_raise TypeError
  end.

(** [s / k] on a series, plain or labelled. *)
Definition series_truediv (s : nat) (k : Q) : Py nat :=
  o ← deref s;
  match o with
  | ONumbers v => new (ONumbers (series_div_scalar v k))
  | OLabelled v => new (OLabelled (labelled_div_scalar v k))
  | _ => py_raise TypeError
  end.

(** [f.div(s, axis=0)] and [f.div(s, axis=1)]. *)
Definition frame_div (f s : nat) : Py nat :=
  o ← deref f;
  d ← deref s;
  match o, d with
  | OFrame t, ONumbers v => new (OFrame (frame_div_axis0 t v))
  | OFrame t, OLabelled v => new (OFrame (frame_div_axis1 t v))
  | _, _ => py_raise TypeError
  end.

(** [f.sum(axis=0)], [f + k] and [np.log2(f)]. *)
Definition frame_sum (f : nat) : Py nat :=
  o ← deref f;
  match o with
  | OFrame t => new (OLabelled (frame_sum_axis0 t))
  | _ => py_raise TypeError
  end.

Definition frame_add (f : nat) (k : Q) : Py nat :=
  o ← deref f;
  match o with
  | OFrame t => new (OFrame (frame_add_scalar t k))
  | _ => py_raise TypeError
  end.

Definition log2 (f : nat) : Py nat :=
  o ← deref f;
  match o with
  | OFrame t => new (OLog2 None (np_log2 t))
  | _ => py_raise TypeError
  end.

(** [t.insert(0, 'Geneid', ids)]: the frame [t] itself gets the column;
    pandas refuses a label the frame already has. *)
Definition insert_Geneid (t ids : nat) : Py unit :=
  o ← deref t;
  d ← deref ids;
  match o, d with
  | OLog2 None f, OText s =>
      if existsb (String.eqb "Geneid") (map fst f) then py_raise ValueError
      else assign t (OLog2 (Some s) f)
  | OLog2 (Some _) _, OText _ => py_raise ValueError
  | _, _ => py_raise TypeError
  end.

(** The function, statement by statement, on a reference to the input
    frame; its value is a reference to the table. *)
Definition calculate_log2_tpm_obj (df : nat) : Py nat :=
  gene_ids ← getitem_Geneid df;
  lengths ← getitem_Length df;
  counts ← iloc_columns_from_6 df;
  kilobases ← series_truediv lengths 1000;
  rpk ← frame_div counts kilobases;
  sums ← frame_sum rpk;
  scaling_factors ← series_truediv sums 1000000;
  tpm ← frame_div rpk scaling_factors;
  shifted ← frame_add tpm 1;
  log2_tpm ← log2 shifted;
  insert_Geneid log2_tpm gene_ids ;;
  mret log2_tpm.

(** The table an object holds once its identifiers are in place. *)
Definition table_of (o : object) : option Log2Frame :=
  match o with
  | OLog2 (Some ids) f => Some {| l2_Geneid := ids; l2_samples := f |}
  | _ => None
  end.

(* ================================================================== *)
(** ** Long format, conditions and the per-condition statistics *)

(** A row of [plot_data]: the long table of [result_df.melt(id_vars=
    ['Geneid'], var_name='Sample', value_name='log2TPM')] with the
    [Condition] column the script adds to it. *)
Record PlotRow : Type := mkPlotRow {
  pr_Geneid : string;
  pr_Sample : string;
  pr_log2TPM : R;
  pr_Condition : string
}.

(** The text of [s] before the first occurrence of [c], all of [s] when it
    has none. *)
Fixpoint cut_at (c : ascii) (s : string) : string :=
  match s with
  | EmptyString => EmptyString
  | String a r =>
      if Ascii.eqb a c then EmptyString else String a (cut_at c r)
  end.

(** [s.split('_')[0]]. *)
Definition before_underscore (s : string) : string := cut_at "_"%char s.

(** The long table of a frame: the value columns stacked one under the
    other, each entry with its identifier and the label of the column it
    came from. *)
Definition melt_rows (t : Log2Frame) : list (string * string * R) :=
  flat_map (fun c : Column R =>
              zip_with (fun g v => (g, fst c, v)) (l2_Geneid t) (snd c))
           (l2_samples t).

(** [result_df.melt(id_vars=['Geneid'], var_name='Sample',
    value_name='log2TPM')]: pandas refuses a [value_name] that is already
    the label of a column. *)
Definition melt (t : Log2Frame) : Result (list (string * string * R)) :=
  if existsb (String.eqb "log2TPM") (map fst (l2_samples t))
  then Raise ValueError
  else Ok (melt_rows t).

(** [plot_data['Condition'] = plot_data['Sample'].str.split('_').str[0]]. *)
Definition add_Condition (plot_data : list (string * string * R))
  : list PlotRow :=
  map (fun r : string * string * R =>
         {| pr_Geneid := fst (fst r); pr_Sample := snd (fst r);
            pr_log2TPM := snd r;
            pr_Condition := before_underscore (snd (fst r)) |})
      plot_data.

(** A stable sort by a boolean order: what pandas does for group keys and
    for [sort_values] on several columns. *)
Fixpoint insert_by {A : Type} (le : A -> A -> bool) (x : A) (l : list A)
  : list A :=
  match l with
  | [] => [x]
  | y :: l' => if le x y then x :: y :: l' else y :: insert_by le x l'
  end.

Definition sort_by {A : Type} (le : A -> A -> bool) (l : list A) : list A :=
  fold_right (insert_by le) [] l.

(** [unique()]: the distinct values in order of first appearance. *)
Fixpoint unique_by {A : Type} (eqb : A -> A -> bool) (l : list A) : list A :=
  match l with
  | [] => []
  | x :: l' => x :: List.filter (fun y => negb (eqb x y)) (unique_by eqb l')
  end.

Definition unique (l : list string) : list string := unique_by String.eqb l.

(** Group keys [(Geneid, Condition)] and their order: by [Geneid], then by
    [Condition], both as Python compares strings. *)
Abbreviation key := (string * string)%type (only parsing).

Definition key_eqb (a b : key) : bool :=
  String.eqb (fst a) (fst b) && String.eqb (snd a) (snd b).

Definition key_leb (a b : key) : bool :=
  match String.compare (fst a) (fst b) with
  | Lt => true
  | Gt => false
  | Eq => String.leb (snd a) (snd b)
  end.

Definition row_key (r : PlotRow) : key := (pr_Geneid r, pr_Condition r).

(** The [mean] and [std] aggregations.  pandas' [std] is the sample
    standard deviation (one degree of freedom removed) and is [NaN], here
    [None], for a group of fewer than two values. *)
Definition Rmean (l : list R) : R := (Rsum l / INR (length l))%R.

Definition sample_std (l : list R) : option R :=
  if (length l <? 2)%nat then None
  else Some (sqrt (Rsum (map (fun v => ((v - Rmean l) * (v - Rmean l))%R) l)
                   / INR (length l - 1))).

(** A row of [stats] after [reset_index()]. *)
Record AggRow : Type := mkAggRow {
  ag_Geneid : string;
  ag_Condition : string;
  ag_mean : R;
  ag_std : option R
}.

(** The values of one group, in the order of the long table. *)
Definition group_values (plot_data : list PlotRow) (k : key) : list R :=
  map pr_log2TPM (List.filter (fun r => key_eqb (row_key r) k) plot_data).

(** [plot_data.groupby(['Geneid', 'Condition'])['log2TPM']
      .agg(['mean', 'std']).reset_index()]: one row per key that occurs,
    keys in sorted order.  The values are numbers: a [NaN] in the table,
    which the aggregation would skip, is outside the embedding. *)
Definition groupby_agg (plot_data : list PlotRow) : list AggRow :=
  map (fun k : key =>
         {| ag_Geneid := fst k; ag_Condition := snd k;
            ag_mean := Rmean (group_values plot_data k);
            ag_std := sample_std (group_values plot_data k) |})
      (sort_by key_leb (unique_by key_eqb (map row_key plot_data))).

(** The values the specification names for a gene and a condition: the
    gene's entries in exactly the sample columns whose label, cut at the
    first underscore, is the condition. *)
Definition spec_condition_values (t : Log2Frame) (gene cond : string)
  : list R :=
  flat_map (fun c : Column R =>
              if String.eqb (before_underscore (fst c)) cond
              then map snd (List.filter (fun gv : string * R =>
                                      String.eqb (fst gv) gene)
                                   (zip (l2_Geneid t) (snd c)))
              else [])
           (l2_samples t).

(** The same values with the condition of a column in the words of the
    specification: [cond] is the prefix of the sample name before its first
    underscore when [cond] has no underscore and the name is [cond] alone
    or begins with [cond] and an underscore. *)
Definition has_underscore (s : string) : bool :=
  existsb (Ascii.eqb "_"%char) (list_ascii_of_string s).

Definition is_prefix_before_underscore (cond name : string) : bool :=
  negb (has_underscore cond) &&
  (String.eqb name cond || String.prefix (cond ++ "_") name).

Definition spec_values_by_prefix (t : Log2Frame) (gene cond : string)
  : list R :=
  flat_map (fun c : Column R =>
              if is_prefix_before_underscore cond (fst c)
              then map snd (List.filter (fun gv : string * R =>
                                      String.eqb (fst gv) gene)
                                   (zip (l2_Geneid t) (snd c)))
              else [])
           (l2_samples t).

(* ------------------------------------------------------------------ *)
(** *** The [Day] column and the time-series order *)

(** The digits of ASCII; in a sample name written in ASCII they are what
    [\d] matches. *)
Definition is_digit (c : ascii) : bool :=
  (48 <=? nat_of_ascii c)%nat && (nat_of_ascii c <=? 57)%nat.

(** The digits at the head of a string. *)
Fixpoint leading_digits (s : string) : string :=
  match s with
  | EmptyString => EmptyString
  | String c r =>
      if is_digit c then String c (leading_digits r) else EmptyString
  end.

(** [str.extract('(\d+)')]: the first maximal run of digits, [None] (pandas:
    NaN) when the string has no digit. *)
Fixpoint extract_digits (s : string) : option string :=
  match s with
  | EmptyString => None
  | String c r =>
      if is_digit c then Some (String c (leading_digits r))
      else extract_digits r
  end.

(** [int(s)] on a string of digits. *)
Fixpoint int_of_digits_from (acc : Z) (s : string) : Z :=
  match s with
  | EmptyString => acc
  | String c r =>
      int_of_digits_from (10 * acc + (Z.of_nat (nat_of_ascii c) - 48))%Z r
  end.

Definition int_of_digits (s : string) : Z := int_of_digits_from 0 s.

(** [.astype(int)] on one entry.  The target is a 64-bit integer: a
    missing value cannot be cast, and neither can a number from [2 ^ 63]
    on. *)
Definition int64_bound : Z := 9223372036854775808.

Definition astype_int (o : option string) : Result Z :=
  match o with
  | Some d =>
      if (int_of_digits d <? int64_bound)%Z then Ok (int_of_digits d)
      else Raise OverflowError
  | None => Raise ValueError
  end.

Definition has_digit (s : string) : bool :=
  match extract_digits s with Some _ => true | None => false end.

(** A row of [stats] once it carries [Day]. *)
Record StatRow : Type := mkStatRow {
  st_Geneid : string;
  st_Condition : string;
  st_mean : R;
  st_std : option R;
  st_Day : Z
}.

(** [stats['Day'] = stats['Condition'].str.extract('(\d+)').astype(int)]:
    the cast goes down the column and raises at the first entry it cannot
    convert. *)
Fixpoint add_Day (stats : list AggRow) : Result (list StatRow) :=
  match stats with
  | [] => Ok []
  | r :: rest =>
      match astype_int (extract_digits (ag_Condition r)) with
      | Raise e => Raise e
      | Ok d =>
          match add_Day rest with
          | Raise e => Raise e
          | Ok rest' =>
              Ok ({| st_Geneid := ag_Geneid r;
                     st_Condition := ag_Condition r;
                     st_mean := ag_mean r; st_std := ag_std r;
                     st_Day := d |} :: rest')
          end
      end
  end.

(** The order of [stats.sort_values(['Geneid', 'Day'])]. *)
Definition stat_leb (a b : StatRow) : bool :=
  match String.compare (st_Geneid a) (st_Geneid b) with
  | Lt => true
  | Gt => false
  | Eq => (st_Day a <=? st_Day b)%Z
  end.

Definition sort_values (stats : list StatRow) : list StatRow :=
  sort_by stat_leb stats.

(* ================================================================== *)
(** ** The figure *)

(** A [go.Scatter] trace with the attributes the script sets. *)
Record Trace : Type := mkTrace {
  tr_x : list string;
  tr_y : list R;
  tr_name : string;
  tr_visible : bool;
  tr_fill : option string;
  tr_fillcolor : option string;
  tr_line_color : string;
  tr_line_width : option Z;
  tr_mode : option string;
  tr_hoverinfo : option string;
  tr_showlegend : option bool
}.

(** A button of the dropdown: [dict(label=..., method="update",
    args=[{"visible": ...}, {"title": ...}])]. *)
Record Button : Type := mkButton {
  bt_label : string;
  bt_method : string;
  bt_visible : list bool;
  bt_title : string
}.

(** The layout: the one dropdown of [updatemenus] with its placement, and
    the titles. *)
Record Layout : Type := mkLayout {
  ly_buttons : list Button;
  ly_direction : string;
  ly_showactive : bool;
  ly_x : Q;
  ly_y : Q;
  ly_pad_t : Z;
  ly_title : string;
  ly_xaxis_title : string;
  ly_yaxis_title : string;
  ly_template : string;
  ly_hovermode : string
}.

Record Figure : Type := mkFigure {
  fig_data : list Trace;
  fig_layout : Layout
}.

Definition num_to_show : nat := 200.
Definition num_traces_per_gene : nat := 2.

(** [s.fillna(0)] on one entry of the [std] column. *)
Definition fillna0 (o : option R) : R :=
  match o with Some v => v | None => 0%R end.

(** [stats[stats['Geneid'] == gene]]. *)
Definition gene_stats_of (stats : list StatRow) (gene : string)
  : list StatRow :=
  List.filter (fun r => String.eqb (st_Geneid r) gene) stats.

(** The ribbon trace of one pass through the first loop. *)
Definition ribbon_trace (stats : list StatRow) (i : nat) (gene : string)
  : Trace :=
  let gene_stats := gene_stats_of stats gene in
  let x := map st_Condition gene_stats in
  let y_upper :=
    map (fun r => (st_mean r + fillna0 (st_std r))%R) gene_stats in
  let y_lower :=
    map (fun r => (st_mean r - fillna0 (st_std r))%R) gene_stats in
  {| tr_x := x ++ rev x;
     tr_y := y_upper ++ rev y_lower;
     tr_name := gene ++ "_ribbon";
     tr_visible := Nat.eqb i 0;
     tr_fill := Some "toself";
     tr_fillcolor := Some "rgba(0,176,246,0.2)";
     tr_line_color := "rgba(255,255,255,0)";
     tr_line_width := None;
     tr_mode := None;
     tr_hoverinfo := Some "skip";
     tr_showlegend := Some false |}.

(** The mean-line trace of the same pass. *)
Definition mean_trace (stats : list StatRow) (i : nat) (gene : string)
  : Trace :=
  let gene_stats := gene_stats_of stats gene in
  {| tr_x := map st_Condition gene_stats;
     tr_y := map st_mean gene_stats;
     tr_name := gene;
     tr_visible := Nat.eqb i 0;
     tr_fill := None;
     tr_fillcolor := None;
     tr_line_color := "rgb(0,176,246)";
     tr_line_width := Some 3%Z;
     tr_mode := Some "lines+markers";
     tr_hoverinfo := None;
     tr_showlegend := None |}.

(** [enumerate(l)]. *)
Definition enumerate {A : Type} (l : list A) : list (nat * A) :=
  zip (seq 0 (length l)) l.

(** The first loop: each pass calls [fig.add_trace] twice, which appends to
    [fig.data]. *)
Definition add_gene_traces (stats : list StatRow) (data : list Trace)
  (ig : nat * string) : list Trace :=
  (data ++ [ribbon_trace stats (fst ig) (snd ig)])
    ++ [mean_trace stats (fst ig) (snd ig)].

Definition build_traces (stats : list StatRow) (unique_genes : list string)
  : list Trace :=
  fold_left (add_gene_traces stats)
            (enumerate (take num_to_show unique_genes)) [].

(** [l[i] = v] on a Python list with a non-negative index. *)
Definition list_setitem {A : Type} (l : list A) (i : nat) (v : A)
  : Result (list A) :=
  if (i <? length l)%nat then Ok (<[i := v]> l) else Raise IndexError.

(** One pass through the second loop: the button of gene number [i]. *)
Definition make_button (total_traces : nat) (ig : nat * string)
  : Result Button :=
  let visibility := replicate total_traces false in
  let start_idx := (fst ig * num_traces_per_gene)%nat in
  match list_setitem visibility start_idx true with
  | Raise e => Raise e
  | Ok visibility =>
      match list_setitem visibility (start_idx + 1) true with
      | Raise e => Raise e
      | Ok visibility =>
          Ok {| bt_label := snd ig;
                bt_method := "update";
                bt_visible := visibility;
                bt_title := "Mean Expression Profile for " ++ snd ig
                            ++ " (± SD)" |}
      end
  end.

(** The second loop: [buttons.append(button)] pass after pass; the first
    exception ends it. *)
Fixpoint build_buttons_from (total_traces : nat) (igs : list (nat * string))
  (buttons : list Button) : Result (list Button) :=
  match igs with
  | [] => Ok buttons
  | ig :: rest =>
      match make_button total_traces ig with
      | Raise e => Raise e
      | Ok button => build_buttons_from total_traces rest (buttons ++ [button])
      end
  end.

Definition build_buttons (total_traces : nat) (unique_genes : list string)
  : Result (list Button) :=
  build_buttons_from total_traces
                     (enumerate (take num_to_show unique_genes)) [].

(** [fig.update_layout(...)]: the title is formatted from
    [unique_genes[0]], which raises on an empty array. *)
Definition update_layout (buttons : list Button) (unique_genes : list string)
  : Result Layout :=
  match unique_genes !! 0%nat with
  | None => Raise IndexError
  | Some gene0 =>
      Ok {| ly_buttons := buttons;
            ly_direction := "down";
            ly_showactive := true;
            ly_x := (1 # 10)%Q;
            ly_y := (12 # 10)%Q;
            ly_pad_t := 10%Z;
            ly_title := "Mean Expression Profile for " ++ gene0
                        ++ " (± SD)";
            ly_xaxis_title := "Days (Condition)";
            ly_yaxis_title := "log2(TPM + 1)";
            ly_template := "plotly_white";
            ly_hovermode := "x unified" |}
  end.

(** The figure, from the sorted statistics on: the part of
    [generate_html_dashboard] between the last two progress messages. *)
Definition build_figure (stats : list StatRow) : Result Figure :=
  let unique_genes := unique (map st_Geneid stats) in
  let data := build_traces stats unique_genes in
  let total_traces := length data in
  match build_buttons total_traces unique_genes with
  | Raise e => Raise e
  | Ok buttons =>
      match update_layout buttons unique_genes with
      | Raise e => Raise e
      | Ok layout => Ok {| fig_data := data; fig_layout := layout |}
      end
  end.

(** The statistics table from the frame on: long format, conditions,
    aggregation, [Day], sort. *)
Definition sorted_stats (df : DataFrame) : Result (list StatRow) :=
  let result_df := calculate_log2_tpm df in
  match melt result_df with
  | Raise e => Raise e
  | Ok plot_data =>
      let plot_data := add_Condition plot_data in
      let stats := groupby_agg plot_data in
      match add_Day stats with
      | Raise e => Raise e
      | Ok stats => Ok (sort_values stats)
      end
  end.

(* ================================================================== *)
(** ** Files, output and the script *)

(** What the script can observe and change: the files by path, and the
    lines printed so far. *)
Record World : Type := mkWorld {
  files : gmap string string;
  stdout : list string
}.

(** Computations that read and change the world and may raise. *)
Definition M (A : Type) : Type := World -> Result A * World.

Definition ret {A : Type} (a : A) : M A := fun w => (Ok a, w).

Definition bind {A B : Type} (m : M A) (k : A -> M B) : M B :=
  fun w =>
    match m w with
    | (Ok a, w') => k a w'
    | (Raise e, w') => (Raise e, w')
    end.

Definition lift {A : Type} (r : Result A) : M A := fun w => (r, w).

Global Instance M_ret : MRet M := @ret.
Global Instance M_bind : MBind M := fun A B k m => bind m k.

Definition print (line : string) : M unit :=
  fun w => (Ok tt, {| files := files w; stdout := stdout w ++ [line] |}).

Definition read_text (path : string) : M string :=
  fun w =>
    match files w !! path with
    | Some text => (Ok text, w)
    | None => (Raise FileNotFoundError, w)
    end.

Definition write_text (path text : string) : M unit :=
  fun w =>
    (Ok tt, {| files := <[path := text]> (files w); stdout := stdout w |}).

(** [os.path.exists]. *)
Definition path_exists (path : string) : M bool :=
  fun w => (Ok (bool_decide (is_Some (files w !! path))), w).

(* ------------------------------------------------------------------ *)
(** *** [pd.read_csv(input_file, sep='\t', comment='#')] *)

(** The pieces of [s] between the occurrences of [sep]. *)
Fixpoint split_on (sep : ascii) (s : string) : list string :=
  match s with
  | EmptyString => [EmptyString]
  | String a r =>
      if Ascii.eqb a sep then EmptyString :: split_on sep r
      else match split_on sep r with
           | [] => [String a EmptyString]
           | p :: ps => String a p :: ps
           end
  end.

Definition newline : ascii := ascii_of_nat 10.
Definition carriage_return : ascii := ascii_of_nat 13.
Definition tab : ascii := ascii_of_nat 9.

(** The lines of a text: a line ends at a newline, at a carriage return,
    or at a carriage return followed by a newline. *)
Fixpoint split_lines (s : string) : list string :=
  match s with
  | EmptyString => [EmptyString]
  | String a r =>
      if Ascii.eqb a newline then EmptyString :: split_lines r
      else if Ascii.eqb a carriage_return then
        EmptyString ::
          match r with
          | EmptyString => [EmptyString]
          | String b r' =>
              if Ascii.eqb b newline then split_lines r' else split_lines r
          end
      else match split_lines r with
           | [] => [String a EmptyString]
           | p :: ps => String a p :: ps
           end
  end.

(** The lines the parser keeps.  A line that is empty or all spaces and a
    line that begins with ['#'] are skipped; any other line is cut at its
    first ['#']. *)
Definition blank (l : string) : bool :=
  forallb (Ascii.eqb " "%char) (list_ascii_of_string l).

Definition comment_line (l : string) : bool :=
  match l with
  | String c _ => Ascii.eqb c "#"%char
  | EmptyString => false
  end.

Definition data_lines (lines : list string) : list string :=
  map (cut_at "#"%char)
      (List.filter (fun l => negb (blank l || comment_line l)) lines).

(** The table as text: the header and the rows of fields. *)
Record RawFrame : Type := mkRawFrame {
  rf_columns : list string;
  rf_rows : list (list string)
}.

(** The first line kept is the header; every other one is a row with as
    many tab-separated fields.  The embedding covers plain tables: no
    quoting, labels taken as written (pandas renames a repeated label), and
    no missing values (pandas pads a short row with them; here a short row
    is reported like a long one). *)
Definition parse_lines (lines : list string) : Result RawFrame :=
  match map (split_on tab) (data_lines lines) with
  | [] => Raise EmptyDataError
  | header :: rows =>
      if forallb (fun r => Nat.eqb (length r) (length header)) rows
      then Ok {| rf_columns := header; rf_rows := rows |}
      else Raise ParserError
  end.

Definition parse_table (text : string) : Result RawFrame :=
  parse_lines (split_lines text).

Definition read_csv (input_file : string) : M RawFrame :=
  text ← read_text input_file;
  lift (parse_table text).

(** The position of the first column labelled [name]. *)
Fixpoint column_index (name : string) (columns : list string) : option nat :=
  match columns with
  | [] => None
  | c :: cs =>
      if String.eqb c name then Some 0%nat
      else match column_index name cs with
           | Some i => Some (S i)
           | None => None
           end
  end.

(** Column [j] of the rows. *)
Definition raw_column (rows : list (list string)) (j : nat) : list string :=
  map (fun r => nth j r "") rows.

(** All entries of a column as numbers, if each of them is one. *)
Fixpoint numeric (to_number : string -> option Q) (col : list string)
  : option (list Q) :=
  match col with
  | [] => Some []
  | f :: fs =>
      match to_number f, numeric to_number fs with
      | Some q, Some qs => Some (q :: qs)
      | _, _ => None
      end
  end.

(** The sample columns [df.iloc[:, 6:]] as numbers; arithmetic on a column
    of text raises [TypeError]. *)
Fixpoint numeric_columns (to_number : string -> option Q)
  (rows : list (list string)) (j : nat) (labels : list string)
  : Result (Frame Q) :=
  match labels with
  | [] => Ok []
  | l :: ls =>
      match numeric to_number (raw_column rows j) with
      | None => Raise TypeError
      | Some col =>
          match numeric_columns to_number rows (S j) ls with
          | Raise e => Raise e
          | Ok cols => Ok ((l, col) :: cols)
          end
      end
  end.

(** The integer literals of a count table: one reading of a field as a
    number. *)
Definition integer_literal (s : string) : option Q :=
  if negb (String.eqb s "") && String.eqb (leading_digits s) s
  then Some (inject_Z (int_of_digits s))
  else None.

(** [s.endswith(suffix)]. *)
Fixpoint endswith (suffix s : string) : bool :=
  String.eqb s suffix ||
  match s with
  | EmptyString => false
  | String _ r => endswith suffix r
  end.

(** The file [plotly.offline.plot] writes for a requested file name: a
    name that does not end in [.html] gets that extension added. *)
Definition html_filename (filename : string) : string :=
  if endswith ".html" filename then filename else filename ++ ".html".

(** The file names fixed in the [__main__] block. *)
Definition input_filename : string := "sense_read_counts".
Definition output_filename : string := "expression_dashboard.html".

Section Script.

(** Two library functions stay abstract: how pandas reads a field as a
    number, and the HTML text plotly writes for a figure. *)
Variable to_number : string -> option Q.
Variable to_html : Figure -> string.

(** The accesses [df['Geneid']], [df['Length']] and [df.iloc[:, 6:]] at
    the head of [calculate_log2_tpm], with the exceptions they and the
    first arithmetic on them raise. *)
Definition featureCounts_frame (df : RawFrame) : Result DataFrame :=
  match column_index "Geneid" (rf_columns df) with
  | None => Raise KeyError
  | Some g =>
      match column_index "Length" (rf_columns df) with
      | None => Raise KeyError
      | Some l =>
          match numeric to_number (raw_column (rf_rows df) l) with
          | None => Raise TypeError
          | Some lengths =>
              match numeric_columns to_number (rf_rows df) 6
                                    (drop 6 (rf_columns df)) with
              | Raise e => Raise e
              | Ok counts =>
                  Ok {| Geneid := raw_column (rf_rows df) g;
                        Length := lengths;
                        counts := counts |}
              end
          end
      end
  end.

(** [plotly.offline.plot(fig, filename=..., auto_open=False)] writes one
    self-contained HTML file. *)
Definition plot (fig : Figure) (filename : string) : M unit :=
  write_text (html_filename filename) (to_html fig).

Definition generate_html_dashboard (input_file output_html : string)
  : M unit :=
  print ("Loading " ++ input_file ++ "...") ;;
  df ← read_csv input_file;
  print "Calculating log2(TPM + 1)..." ;;
  df ← lift (featureCounts_frame df);
  let result_df := calculate_log2_tpm df in
  plot_data ← lift (melt result_df);
  let plot_data := add_Condition plot_data in
  print "Aggregating data by condition..." ;;
  let stats := groupby_agg plot_data in
  stats ← lift (add_Day stats);
  let stats := sort_values stats in
  print "Generating Interactive Ribbon Plots..." ;;
  fig ← lift (build_figure stats);
  plot fig output_html ;;
  print ("Done! Dashboard saved to " ++ output_html).

(** The [__main__] block. *)
Definition main : M unit :=
  path_exists input_filename ≫= λ found : bool,
  if found then generate_html_dashboard input_filename output_filename
  else print ("Error: " ++ input_filename ++ " not found.").

End Script.

(** A row of the sorted table without its [Day]. *)
Definition agg_of (r : StatRow) : AggRow :=
  {| ag_Geneid := st_Geneid r; ag_Condition := st_Condition r;
     ag_mean := st_mean r; ag_std := st_std r |}.

(** The integer the script extracts from a condition name, for a name
    that has a digit. *)
Definition extracted_integer (c : string) : Z :=
  match extract_digits c with
  | Some d => int_of_digits d
  | None => 0%Z
  end.

(** A sequence of condition names in ascending order of that integer. *)
Definition ascending_days (x : list string) : Prop :=
  StronglySorted Z.le (map extracted_integer x).

(* ================================================================== *)
(** ** Example inputs *)

(** One gene of 1000 bases with one read in one sample. *)
Definition one_read_frame : DataFrame :=
  {| Geneid := ["geneA"]; Length := [1000%Q];
     counts := [("d04_rep1", [1%Q])] |}.

(** Two genes and one sample, with a fractional count. *)
Definition halves_frame : DataFrame :=
  {| Geneid := ["geneA"; "geneB"]; Length := [1000%Q; 500%Q];
     counts := [("d04_rep1", [(1 # 2)%Q; 3%Q])] |}.

(** Two genes, two replicates of day 4 and one of day 7. *)
Definition replicate_frame : DataFrame :=
  {| Geneid := ["geneA"; "geneB"]; Length := [1000%Q; 2000%Q];
     counts := [("d04_rep1", [10%Q; 5%Q]); ("d04_rep2", [20%Q; 0%Q]);
                ("d07_rep1", [30%Q; 7%Q])] |}.

(** A sorted table of one gene at one condition. *)
Definition one_gene_stats : list StatRow :=
  [ {| st_Geneid := "geneA"; st_Condition := "d04"; st_mean := 1%R;
       st_std := None; st_Day := 4%Z |} ].

(** Text files: fields joined by tabs, lines by newlines. *)
Fixpoint join (sep : ascii) (l : list string) : string :=
  match l with
  | [] => ""
  | [x] => x
  | x :: rest => x ++ String sep (join sep rest)
  end.

Definition header_line : string :=
  join tab ["Geneid"; "Chr"; "Start"; "End"; "Strand"; "Length";
            "d04_rep1"; "d04_rep2"; "d07_rep1"].

(** A featureCounts file of two genes, with the comment line featureCounts
    writes first. *)
Definition counts_text : string :=
  join newline
    [ "# Program:featureCounts";
      header_line;
      join tab ["geneA"; "chr"; "1"; "1000"; "+"; "1000"; "10"; "20"; "30"];
      join tab ["geneB"; "chr"; "5"; "2004"; "-"; "2000"; "5"; "0"; "7"] ].

(** A count file whose samples are not named after a day. *)
Definition undated_text : string :=
  join newline
    [ "# Program:featureCounts";
      join tab ["Geneid"; "Chr"; "Start"; "End"; "Strand"; "Length";
                "ctrl_rep1"; "treated_rep1"];
      join tab ["geneA"; "chr"; "1"; "1000"; "+"; "1000"; "10"; "20"] ].

(** The file of [counts_text] without any gene. *)
Definition header_only_text : string :=
  join newline [ "# Program:featureCounts"; header_line ].

Definition world_with (text : string) : World :=
  {| files := {[ input_filename := text ]}; stdout := [] |}.

Definition no_files : World := {| files := ∅; stdout := [] |}.

(** A stand-in for the HTML text of a figure. *)
Definition html_stub (fig : Figure) : string := "<html>".
(* ================================================================== *)
(** ** Further conditions on frames *)

(** No count is negative; every gene length is positive. *)
Definition counts_nonnegative (df : DataFrame) : bool :=
  forallb (fun c : Column Q => forallb (fun v => Qle_bool 0 v) (snd c))
          (counts df).

Definition lengths_positive (df : DataFrame) : bool :=
  forallb (fun l => negb (Qle_bool l 0)) (Length df).

(** A sample column sequenced [k] times as deep: the same label, every
    count multiplied by one nonzero factor. *)
Definition depth_scaled (c c' : Column Q) : Prop :=
  fst c = fst c' /\
  exists k : Q, ~ (k == 0)%Q /\
    Forall2 (fun v v' => (v' == k * v)%Q) (snd c) (snd c').

(** Two frames of the same genes whose samples differ in depth only. *)
Definition depth_scaled_frame (df df' : DataFrame) : Prop :=
  Geneid df = Geneid df' /\
  Length df = Length df' /\
  Forall2 depth_scaled (counts df) (counts df').

(** [replicate_frame] with its first sample three times as deep and its
    last one half as deep. *)
Definition deeper_frame : DataFrame :=
  {| Geneid := ["geneA"; "geneB"]; Length := [1000%Q; 2000%Q];
     counts := [("d04_rep1", [30%Q; 15%Q]); ("d04_rep2", [20%Q; 0%Q]);
                ("d07_rep1", [15%Q; (7 # 2)%Q])] |}.

(** A sorted table in which one gene has two conditions. *)
Definition two_gene_stats : list StatRow :=
  [ {| st_Geneid := "geneA"; st_Condition := "d04"; st_mean := 1%R;
       st_std := Some 1%R; st_Day := 4%Z |};
    {| st_Geneid := "geneA"; st_Condition := "d07"; st_mean := 2%R;
       st_std := None; st_Day := 7%Z |};
    {| st_Geneid := "geneB"; st_Condition := "d04"; st_mean := 3%R;
       st_std := None; st_Day := 4%Z |} ].


(** Two genes with the same count, the second twice as long. *)
Definition same_count_frame : DataFrame :=
  {| Geneid := ["geneA"; "geneB"]; Length := [1000%Q; 2000%Q];
     counts := [("d04_rep1", [10%Q; 10%Q])] |}.


(** One replicate per condition. *)
Definition single_replicate_frame : DataFrame :=
  {| Geneid := ["geneA"; "geneB"]; Length := [1000%Q; 2000%Q];
     counts := [("d04_rep1", [10%Q; 5%Q]); ("d07_rep1", [30%Q; 7%Q])] |}.

(* ================================================================== *)
(** ** The inputs the embedding covers *)

(** pandas and plotly treat some inputs in ways the embedding leaves out.
    They decode quoted fields and characters outside ASCII (a digit of
    another script counts as a digit).  They read a column of numbers or of
    truth values as such, and a missing-value token as a missing value,
    also among the gene identifiers.  They rename a repeated label.  They
    take a file name with a scheme or a compression suffix for something
    other than a plain local file.  And where a division by zero or the
    logarithm of a negative number leaves [NaN] in the table, the
    aggregation skips it.  The conditions below keep a run clear of all
    that; the theorems about whole runs and about aggregated values carry
    them. *)

Definition printable (c : ascii) : bool :=
  (32 <=? nat_of_ascii c)%nat && (nat_of_ascii c <=? 126)%nat.

Definition double_quote : ascii := ascii_of_nat 34.

(** Plain text: printable ASCII other than the quote character, tabs and
    newlines. *)
Definition plain_char (c : ascii) : bool :=
  printable c && negb (Ascii.eqb c double_quote)
  || Ascii.eqb c tab || Ascii.eqb c newline.

Definition plain_text (s : string) : bool :=
  forallb plain_char (list_ascii_of_string s).

Definition ascii_only (s : string) : bool :=
  forallb (fun c => (nat_of_ascii c <? 128)%nat) (list_ascii_of_string s).

Definition is_upper (c : ascii) : bool :=
  (65 <=? nat_of_ascii c)%nat && (nat_of_ascii c <=? 90)%nat.

Definition is_lower (c : ascii) : bool :=
  (97 <=? nat_of_ascii c)%nat && (nat_of_ascii c <=? 122)%nat.

Definition is_letter (c : ascii) : bool := is_upper c || is_lower c.

Definition lower_char (c : ascii) : ascii :=
  if is_upper c then ascii_of_nat (nat_of_ascii c + 32) else c.

Fixpoint lower (s : string) : string :=
  match s with
  | EmptyString => EmptyString
  | String c r => String (lower_char c) (lower r)
  end.

(** A file name of letters, digits and underscores, of at most 200
    characters. *)
Definition plain_name (s : string) : bool :=
  negb (String.eqb s "")
  && forallb (fun c => is_letter c || is_digit c || Ascii.eqb c "_"%char)
             (list_ascii_of_string s)
  && (String.length s <=? 200)%nat.

(** Words that pandas does not read as text, in lower case: missing-value
    tokens, truth values and infinities. *)
Definition reserved_tokens : list string :=
  ["na"; "n/a"; "nan"; "null"; "none"; "true"; "false"; "inf"; "infinity"].

(** A gene identifier that is read as text whatever else its column holds:
    it begins with a letter and is none of those words. *)
Definition text_id (s : string) : bool :=
  match s with
  | EmptyString => false
  | String c _ => is_letter c
  end
  && negb (existsb (String.eqb (lower s)) reserved_tokens).

(** The labels of the sample columns are distinct, and none is a label the
    script itself gives to a column: [Geneid] and [Length] in its input,
    [log2TPM] in the long table. *)
Definition sample_labels_ok (df : DataFrame) : Prop :=
  List.NoDup ("Geneid" :: "Length" :: "log2TPM" :: map fst (counts df)).

(** A sample name in ASCII whose condition has a digit, the integer
    extracted from it within the 64-bit range. *)
Definition dated (name : string) : bool :=
  ascii_only name
  && has_digit (before_underscore name)
  && (extracted_integer (before_underscore name) <? int64_bound)%Z.

(** No division by zero and no logarithm of a negative number. *)
Definition values_defined (df : DataFrame) : bool :=
  counts_nonnegative df && lengths_positive df && rpk_sums_nonzero df.

(** A count file whose second sample is named [log2TPM]. *)
Definition log2TPM_text : string :=
  join newline
    [ join tab ["Geneid"; "Chr"; "Start"; "End"; "Strand"; "Length";
                "d04_rep1"; "log2TPM"];
      join tab ["geneA"; "chr"; "1"; "1000"; "+"; "1000"; "10"; "20"] ].

(** A count file whose sample is named after a day beyond the 64-bit
    integers. *)
Definition far_day_text : string :=
  join newline
    [ join tab ["Geneid"; "Chr"; "Start"; "End"; "Strand"; "Length";
                "d9223372036854775808_rep1"];
      join tab ["geneA"; "chr"; "1"; "1000"; "+"; "1000"; "10"] ].

(** A frame object among others. *)
Definition heap_of_replicate_frame : list object :=
  [OText ["other"]; ODataFrame replicate_frame].

(* ================================================================== *)
(** ** Lists *)

Lemma lookup_map {A B : Type} (f : A -> B) (l : list A) (i : nat) :
  map f l !! i = f <$> l !! i.
Proof. exact (list_lookup_fmap f l i). Qed.

(** A list of distinct strings, by comparing them. *)
Ltac distinct_strings :=
  repeat (constructor;
          [ let H := fresh "H" in
            simpl; intros H;
            repeat (destruct H as [H|H]; [discriminate H|]); exact H |]);
  constructor.

(* ================================================================== *)
(** ** Sums and quotients of rationals *)

(** A rational constant is not zero. *)
Ltac Qnonzero := let E := fresh "E" in intros E; vm_compute in E; discriminate E.

Lemma Qsum_div (l : list Q) (k : Q) :
  (Qsum (series_div_scalar l k) == Qsum l / k)%Q.
Proof.
  induction l as [|v l IH]; simpl.
  - unfold Qdiv. ring.
  - rewrite IH. unfold Qdiv. ring.
Qed.

Lemma Q2R_Qsum (l : list Q) : Q2R (Qsum l) = Rsum (map Q2R l).
Proof.
  induction l as [|v l IH]; simpl.
  - unfold Q2R; simpl; lra.
  - rewrite Q2R_plus, IH. reflexivity.
Qed.

Lemma Qeq_bool_nonzero (q : Q) : negb (Qeq_bool q 0) = true -> ~ (q == 0)%Q.
Proof.
  intros H E. apply Qeq_bool_iff in E. rewrite E in H. discriminate.
Qed.

Lemma Q2R_1000 : Q2R 1000 = 1000%R.
Proof. unfold Q2R; simpl; lra. Qed.

Lemma Q2R_million : Q2R 1000000 = 1000000%R.
Proof. unfold Q2R; simpl; lra. Qed.

Lemma Q2R_one : Q2R 1 = 1%R.
Proof. unfold Q2R; simpl; lra. Qed.

(** The tables of [calculate_log2_tpm], column by column. *)
Lemma tpm_table_columns (df : DataFrame) :
  tpm_table df =
  map (fun c : Column Q =>
         (fst c, series_div_scalar (snd c) (Qsum (snd c) / 1000000)))
      (rpk_table df).
Proof.
  unfold tpm_table, scaling_factors, frame_div_axis1, labelled_div_scalar,
    frame_sum_axis0.
  induction (rpk_table df) as [|c f IH]; simpl; [reflexivity|].
  f_equal. exact IH.
Qed.

Lemma rpk_table_lookup (df : DataFrame) (j : nat) :
  rpk_table df !! j =
  (fun c : Column Q =>
     (fst c, zip_with Qdiv (snd c) (series_div_scalar (Length df) 1000)))
    <$> counts df !! j.
Proof. unfold rpk_table, frame_div_axis0. apply lookup_map. Qed.

Lemma tpm_table_lookup (df : DataFrame) (j : nat) :
  tpm_table df !! j =
  (fun c : Column Q =>
     (fst c, series_div_scalar (snd c) (Qsum (snd c) / 1000000)))
    <$> rpk_table df !! j.
Proof. rewrite tpm_table_columns. apply lookup_map. Qed.

Lemma calculate_log2_tpm_samples (df : DataFrame) :
  l2_samples (calculate_log2_tpm df) =
  np_log2 (frame_add_scalar (tpm_table df) 1).
Proof. reflexivity. Qed.

Lemma million_of_nonzero_sum (l : list Q) :
  ~ (Qsum l == 0)%Q ->
  (Qsum (series_div_scalar l (Qsum l / 1000000)) == 1000000)%Q.
Proof.
  intros Hs. rewrite Qsum_div. field. exact Hs.
Qed.

Lemma lengths_nonzero_Forall (df : DataFrame) :
  lengths_nonzero df = true -> Forall (fun l => ~ (l == 0)%Q) (Length df).
Proof.
  unfold lengths_nonzero. intros H. apply Forall_forall. intros l Hl.
  apply Qeq_bool_nonzero.
  rewrite forallb_forall in H. apply H.
  apply list_elem_of_In. exact Hl.
Qed.

Lemma rpk_sums_nonzero_lookup (df : DataFrame) (j : nat) (r : Column Q) :
  rpk_sums_nonzero df = true -> rpk_table df !! j = Some r ->
  ~ (Qsum (snd r) == 0)%Q.
Proof.
  unfold rpk_sums_nonzero, frame_sum_axis0. intros H Hj.
  rewrite forallb_forall in H.
  apply (Qeq_bool_nonzero (snd (fst r, Qsum (snd r)))).
  apply H. apply in_map_iff. exists r. split; [reflexivity|].
  apply list_elem_of_In. eapply list_elem_of_lookup_2. exact Hj.
Qed.

Lemma Q2R_kilobases (len : Q) :
  ~ (len == 0)%Q -> ~ (len / 1000 == 0)%Q.
Proof.
  intros Hl E. apply Hl.
  assert (Hk : (len == len / 1000 * 1000)%Q) by (field; Qnonzero).
  rewrite Hk, E. ring.
Qed.

Lemma Q2R_rpk (c len : Q) :
  ~ (len == 0)%Q -> Q2R (c / (len / 1000)) = spec_rpk c len.
Proof.
  intros Hl. unfold spec_rpk.
  rewrite Q2R_div by (apply Q2R_kilobases; exact Hl).
  rewrite Q2R_div by Qnonzero.
  rewrite Q2R_1000. reflexivity.
Qed.

Lemma Q2R_rpk_column (col lens : list Q) :
  Forall (fun l => ~ (l == 0)%Q) lens ->
  map Q2R (zip_with Qdiv col (series_div_scalar lens 1000)) =
  zip_with spec_rpk col lens.
Proof.
  intros Hl. revert col.
  induction Hl as [|len lens Hlen _ IH]; intros [|c col]; simpl;
    try reflexivity.
  rewrite IH. f_equal. apply Q2R_rpk. exact Hlen.
Qed.

(** An entry of the value of [calculate_log2_tpm], over the reals. *)
Lemma log2_tpm_cell (df : DataFrame) (j i : nat) (col : Column Q)
  (c len : Q) :
  lengths_nonzero df = true ->
  rpk_sums_nonzero df = true ->
  counts df !! j = Some col ->
  snd col !! i = Some c ->
  Length df !! i = Some len ->
  cell (l2_samples (calculate_log2_tpm df)) j i =
  Some (Rlog2 (spec_tpm (snd col) (Length df) c len + 1)).
Proof.
  intros Hlen Hsum Hj Hi Hl.
  pose proof (lengths_nonzero_Forall df Hlen) as Hall.
  assert (Hr : rpk_table df !! j =
               Some (fst col, zip_with Qdiv (snd col)
                                (series_div_scalar (Length df) 1000))).
  { rewrite rpk_table_lookup, Hj. reflexivity. }
  pose proof (rpk_sums_nonzero_lookup df j _ Hsum Hr) as Hs. simpl in Hs.
  unfold cell. rewrite calculate_log2_tpm_samples.
  unfold np_log2, frame_add_scalar.
  rewrite !lookup_map, tpm_table_lookup, Hr. simpl.
  unfold series_div_scalar at 1.
  rewrite !lookup_map, lookup_zip_with, Hi. simpl.
  unfold series_div_scalar in *. rewrite lookup_map, Hl. simpl.
  f_equal. f_equal.
  assert (Hlen0 : ~ (len == 0)%Q).
  { rewrite Forall_forall in Hall. apply Hall.
    eapply list_elem_of_lookup_2. exact Hl. }
  fold (series_div_scalar (Length df) 1000) in *.
  assert (Hs' : ~ (Qsum (zip_with Qdiv (snd col)
                      (series_div_scalar (Length df) 1000)) / 1000000 == 0)%Q).
  { intros E. apply Hs.
    set (S := Qsum _) in *.
    assert (Hk : (S == S / 1000000 * 1000000)%Q) by (field; Qnonzero).
    rewrite Hk, E. ring. }
  rewrite Q2R_plus, Q2R_one. f_equal.
  rewrite Q2R_div by exact Hs'.
  rewrite Q2R_rpk by exact Hlen0.
  rewrite Q2R_div by Qnonzero.
  rewrite Q2R_Qsum, Q2R_rpk_column by exact Hall.
  rewrite Q2R_million. reflexivity.
Qed.


(** *** Equal columns have equal logarithms *)

Lemma np_log2_proper (f1 f2 : Frame Q) :
  Forall2 column_equal f1 f2 ->
  np_log2 (frame_add_scalar f1 1) = np_log2 (frame_add_scalar f2 1).
Proof.
  unfold np_log2, frame_add_scalar.
  induction 1 as [|c1 c2 f1 f2 [Hn Hv] _ IH]; simpl; [reflexivity|].
  rewrite IH, Hn. do 2 f_equal.
  clear -Hv. induction Hv as [|a b l1 l2 Hab _ IH]; simpl; [reflexivity|].
  rewrite IH. do 2 f_equal. apply Qeq_eqR. rewrite Hab. reflexivity.
Qed.

Lemma Rlog2_inj (x y : R) :
  (0 < x)%R -> (0 < y)%R -> Rlog2 x = Rlog2 y -> x = y.
Proof.
  unfold Rlog2. intros Hx Hy E. apply ln_inv; [exact Hx | exact Hy |].
  assert (H2 : (ln 2 <> 0)%R) by (apply ln_neq_0; lra).
  apply (Rmult_eq_reg_r (/ ln 2)); [exact E|].
  apply Rinv_neq_0_compat. exact H2.
Qed.

Lemma one_read_spec_tpm : spec_tpm [1%Q] [1000%Q] 1 1000 = 1000000%R.
Proof.
  unfold spec_tpm, spec_rpk_sum, spec_rpk, Rsum. simpl.
  rewrite Q2R_one, Q2R_1000. field.
Qed.

(* ================================================================== *)
(** ** Claims about [calculate_log2_tpm] *)

(** C1, as amended: for a featureCounts frame whose gene lengths are all
    nonzero and whose sample columns all have a nonzero reads-per-kilobase
    sum, [calculate_log2_tpm] returns the gene identifiers and, for each
    gene and sample, the base-2 logarithm of the gene's TPM plus one (the
    pseudocount), the TPM being reads per kilobase over the column's sum of
    reads per kilobase divided by 1e6. *)
Theorem calculate_log2_tpm_values (df : DataFrame) (j i : nat)
  (col : Column Q) (c len : Q) :
  lengths_nonzero df = true ->
  rpk_sums_nonzero df = true ->
  counts df !! j = Some col ->
  snd col !! i = Some c ->
  Length df !! i = Some len ->
  l2_Geneid (calculate_log2_tpm df) = Geneid df /\
  cell (l2_samples (calculate_log2_tpm df)) j i =
  Some (Rlog2 (spec_tpm (snd col) (Length df) c len + 1)).
Proof.
  intros Hlen Hsum Hj Hi Hl. split; [reflexivity|].
  eapply log2_tpm_cell; eassumption.
Qed.

Lemma calculate_log2_tpm_values_witness :
  l2_Geneid (calculate_log2_tpm one_read_frame) = ["geneA"] /\
  cell (l2_samples (calculate_log2_tpm one_read_frame)) 0 0 =
  Some (Rlog2 (spec_tpm [1%Q] [1000%Q] 1 1000 + 1)).
Proof.
  apply (calculate_log2_tpm_values one_read_frame 0 0 ("d04_rep1", [1%Q])
                                   1%Q 1000%Q); reflexivity.
Defined.

(** C1 as stated fails: for one gene of 1000 bases with one read the TPM is
    1e6, and the entry returned is not its base-2 logarithm. *)
Lemma calculate_log2_tpm_is_not_log2_of_tpm :
  lengths_nonzero one_read_frame = true /\
  rpk_sums_nonzero one_read_frame = true /\
  cell (l2_samples (calculate_log2_tpm one_read_frame)) 0 0 <>
  Some (Rlog2 (spec_tpm [1%Q] [1000%Q] 1 1000)).
Proof.
  split; [reflexivity|]. split; [reflexivity|].
  rewrite (log2_tpm_cell one_read_frame 0 0 ("d04_rep1", [1%Q]) 1%Q 1000%Q)
    by reflexivity.
  simpl. rewrite one_read_spec_tpm. intros E.
  assert (E' : Rlog2 (1000000 + 1) = Rlog2 1000000) by congruence.
  apply Rlog2_inj in E'; lra.
Qed.

(** C8: in exact rational arithmetic, when all gene lengths are nonzero and
    a sample column has a nonzero reads-per-kilobase sum, the TPM values of
    that column, as computed inside [calculate_log2_tpm], sum to exactly
    1,000,000. *)
Theorem tpm_column_sums_to_one_million (df : DataFrame) (j : nat)
  (r : Column Q) :
  lengths_nonzero df = true ->
  rpk_table df !! j = Some r ->
  ~ (Qsum (snd r) == 0)%Q ->
  exists c : Column Q,
    tpm_table df !! j = Some c /\ fst c = fst r /\
    (Qsum (snd c) == 1000000)%Q.
Proof.
  intros _ Hr Hs. eexists. rewrite tpm_table_lookup, Hr. simpl.
  split; [reflexivity|]. split; [reflexivity|]. simpl.
  apply million_of_nonzero_sum. exact Hs.
Qed.

Lemma tpm_column_sums_to_one_million_witness :
  exists c : Column Q,
    tpm_table halves_frame !! 0%nat = Some c /\ fst c = "d04_rep1" /\
    (Qsum (snd c) == 1000000)%Q.
Proof.
  apply (tpm_column_sums_to_one_million halves_frame 0
           ("d04_rep1", [((1 # 2) / (1000 / 1000))%Q; (3 / (500 / 1000))%Q])).
  - reflexivity.
  - reflexivity.
  - intros E. vm_compute in E. discriminate E.
Defined.

(* ================================================================== *)
(** ** Sorting and distinct values *)

Section Sorting.
Context {A : Type}.
Variable le : A -> A -> bool.

Lemma insert_by_Permutation (x : A) (l : list A) :
  Permutation (insert_by le x l) (x :: l).
Proof.
  induction l as [|y l IH]; simpl.
  - reflexivity.
  - destruct (le x y).
    + reflexivity.
    + rewrite IH. apply perm_swap.
Qed.

Lemma sort_by_Permutation (l : list A) : Permutation (sort_by le l) l.
Proof.
  induction l as [|x l IH]; simpl.
  - reflexivity.
  - rewrite insert_by_Permutation, IH. reflexivity.
Qed.

Lemma In_sort_by (x : A) (l : list A) : In x (sort_by le l) <-> In x l.
Proof.
  split; apply Permutation_in;
    [apply sort_by_Permutation | symmetry; apply sort_by_Permutation].
Qed.

Lemma sort_by_length (l : list A) : length (sort_by le l) = length l.
Proof. apply Permutation_length, sort_by_Permutation. Qed.

Hypothesis le_total : forall a b, le a b = true \/ le b a = true.
Hypothesis le_trans :
  forall a b c, le a b = true -> le b c = true -> le a c = true.

Lemma insert_by_sorted (x : A) (l : list A) :
  StronglySorted (fun a b => le a b = true) l ->
  StronglySorted (fun a b => le a b = true) (insert_by le x l).
Proof.
  induction 1 as [|y l Hs IH Hy]; simpl.
  - constructor; constructor.
  - destruct (le x y) eqn:E.
    + constructor; [constructor; assumption|].
      constructor; [exact E|].
      apply List.Forall_forall. intros z Hz. rewrite List.Forall_forall in Hy.
      eapply le_trans; [exact E | apply Hy; exact Hz].
    + constructor; [exact IH|].
      apply List.Forall_forall. intros z Hz.
      apply (Permutation_in _ (insert_by_Permutation x l)) in Hz.
      destruct Hz as [<-|Hz].
      * destruct (le_total x y) as [H|H]; [congruence | exact H].
      * rewrite List.Forall_forall in Hy. apply Hy. exact Hz.
Qed.

Lemma sort_by_sorted (l : list A) :
  StronglySorted (fun a b => le a b = true) (sort_by le l).
Proof.
  induction l as [|x l IH]; simpl.
  - constructor.
  - apply insert_by_sorted. exact IH.
Qed.

End Sorting.

Lemma StronglySorted_filter {A : Type} (R : A -> A -> Prop)
  (p : A -> bool) (l : list A) :
  StronglySorted R l -> StronglySorted R (List.filter p l).
Proof.
  induction 1 as [|x l Hs IH Hx]; simpl.
  - constructor.
  - destruct (p x); [|exact IH].
    constructor; [exact IH|].
    apply List.Forall_forall. intros y Hy. apply filter_In in Hy.
    rewrite List.Forall_forall in Hx. apply Hx. tauto.
Qed.

Section Unique.
Context {A : Type}.
Variable eqb : A -> A -> bool.
Hypothesis eqb_spec : forall a b, eqb a b = true <-> a = b.

Lemma In_unique_by (x : A) (l : list A) :
  In x (unique_by eqb l) <-> In x l.
Proof.
  induction l as [|y l IH]; cbn [unique_by In]; [tauto|].
  rewrite filter_In, IH. split.
  - tauto.
  - intros [->|H]; [left; reflexivity|].
    destruct (eqb y x) eqn:E.
    + left. apply eqb_spec. exact E.
    + right. split; [exact H | reflexivity].
Qed.

Lemma NoDup_unique_by (l : list A) : List.NoDup (unique_by eqb l).
Proof.
  induction l as [|y l IH]; cbn [unique_by]; constructor.
  - intros H. apply filter_In in H. destruct H as [_ H].
    assert (E : eqb y y = true) by (apply eqb_spec; reflexivity).
    rewrite E in H. discriminate.
  - apply List.NoDup_filter. exact IH.
Qed.

End Unique.

Lemma key_eqb_spec (a b : key) : key_eqb a b = true <-> a = b.
Proof.
  destruct a as [a1 a2], b as [b1 b2]. unfold key_eqb. simpl.
  rewrite andb_true_iff, !String.eqb_eq. split.
  - intros [-> ->]. reflexivity.
  - intros [= -> ->]. split; reflexivity.
Qed.

(* ================================================================== *)
(** ** Aggregation by condition *)

Lemma key_eqb_row (g' name : string) (v : R) (g c : string) :
  key_eqb (row_key (mkPlotRow g' name v (before_underscore name))) (g, c) =
  String.eqb g' g && String.eqb (before_underscore name) c.
Proof. reflexivity. Qed.

(** The group of a key inside the long form of one column. *)
Lemma column_group_values (G : list string) (name : string)
  (vals : list R) (g c : string) :
  group_values
    (add_Condition (zip_with (fun g' v => (g', name, v)) G vals)) (g, c) =
  if String.eqb (before_underscore name) c
  then map snd (List.filter (fun gv : string * R => String.eqb (fst gv) g)
                            (zip G vals))
  else [].
Proof.
  unfold group_values, add_Condition. revert vals.
  induction G as [|g' G IH]; intros [|v vals];
    cbn [zip_with map List.filter fst snd];
    try (destruct (String.eqb (before_underscore name) c); reflexivity).
  rewrite key_eqb_row. specialize (IH vals).
  destruct (String.eqb g' g); cbn [andb]; [|exact IH].
  destruct (String.eqb (before_underscore name) c) eqn:E;
    cbn [map snd pr_log2TPM]; [f_equal|]; exact IH.
Qed.

Lemma group_values_app (a b : list PlotRow) (k : key) :
  group_values (a ++ b)%list k =
  (group_values a k ++ group_values b k)%list.
Proof.
  unfold group_values. rewrite List.filter_app, map_app. reflexivity.
Qed.

(** The group of a key in the long table holds the values the
    specification names. *)
Lemma group_values_spec (t : Log2Frame) (g c : string) :
  group_values (add_Condition (melt_rows t)) (g, c) =
  spec_condition_values t g c.
Proof.
  unfold melt_rows, spec_condition_values.
  induction (l2_samples t) as [|col cols IH]; simpl; [reflexivity|].
  unfold add_Condition in *. rewrite map_app.
  rewrite group_values_app, IH.
  f_equal. apply column_group_values.
Qed.

Lemma In_groupby_agg (plot_data : list PlotRow) (r : AggRow) :
  In r (groupby_agg plot_data) <->
  In (ag_Geneid r, ag_Condition r) (map row_key plot_data) /\
  ag_mean r =
    Rmean (group_values plot_data (ag_Geneid r, ag_Condition r)) /\
  ag_std r =
    sample_std (group_values plot_data (ag_Geneid r, ag_Condition r)).
Proof.
  unfold groupby_agg. rewrite in_map_iff. split.
  - intros (k & <- & Hk). simpl.
    apply (proj1 (In_sort_by _ _ _)) in Hk.
    apply (proj1 (In_unique_by _ key_eqb_spec _ _)) in Hk.
    destruct k as [g c]. simpl. repeat split. exact Hk.
  - intros (Hk & Hm & Hs).
    exists (ag_Geneid r, ag_Condition r). split.
    + destruct r as [g c m s]. simpl in *. subst. reflexivity.
    + apply (proj2 (In_sort_by _ _ _)).
      apply (proj2 (In_unique_by _ key_eqb_spec _ _)). exact Hk.
Qed.

Lemma groupby_agg_keys (plot_data : list PlotRow) :
  map (fun r => (ag_Geneid r, ag_Condition r)) (groupby_agg plot_data) =
  sort_by key_leb (unique_by key_eqb (map row_key plot_data)).
Proof.
  unfold groupby_agg. rewrite map_map. simpl.
  rewrite <- (map_id (sort_by _ _)) at 2.
  apply map_ext. intros [g c]. reflexivity.
Qed.

Lemma NoDup_groupby_agg_keys (plot_data : list PlotRow) :
  List.NoDup (map (fun r => (ag_Geneid r, ag_Condition r))
                  (groupby_agg plot_data)).
Proof.
  rewrite groupby_agg_keys.
  eapply Permutation_NoDup.
  - symmetry. apply sort_by_Permutation.
  - apply NoDup_unique_by. apply key_eqb_spec.
Qed.

(** Every gene meets every column in the long table when the columns have
    the frame's number of rows. *)
Lemma melt_covers (t : Log2Frame) (gene : string) (col : Column R) :
  In gene (l2_Geneid t) -> In col (l2_samples t) ->
  length (snd col) = length (l2_Geneid t) ->
  In (gene, before_underscore (fst col))
     (map row_key (add_Condition (melt_rows t))).
Proof.
  intros Hg Hc Hlen.
  apply list_elem_of_In, list_elem_of_lookup_1 in Hg. destruct Hg as [i Hi].
  assert (Hv : is_Some (snd col !! i)).
  { apply lookup_lt_is_Some_2. rewrite Hlen.
    eapply lookup_lt_Some. exact Hi. }
  destruct Hv as [v Hv].
  apply in_map_iff.
  exists {| pr_Geneid := gene; pr_Sample := fst col; pr_log2TPM := v;
            pr_Condition := before_underscore (fst col) |}.
  split; [reflexivity|].
  unfold add_Condition. apply in_map_iff.
  exists (gene, fst col, v). split; [reflexivity|].
  unfold melt_rows. apply in_flat_map. exists col. split; [exact Hc|].
  apply list_elem_of_In, list_elem_of_lookup. exists i.
  rewrite lookup_zip_with, Hi. simpl. rewrite Hv. reflexivity.
Qed.

(** The sample columns of the value of [calculate_log2_tpm] keep the labels
    and, in a rectangular frame, the number of rows. *)
Lemma calculate_log2_tpm_columns (df : DataFrame) (col : Column Q) :
  rectangular df -> In col (counts df) ->
  exists vals : list R,
    In (fst col, vals) (l2_samples (calculate_log2_tpm df)) /\
    length vals = length (Geneid df).
Proof.
  intros [Hg Hc] Hin.
  rewrite calculate_log2_tpm_samples, tpm_table_columns.
  unfold np_log2, frame_add_scalar, rpk_table, frame_div_axis0.
  rewrite !map_map. cbn [fst snd].
  eexists. split.
  - apply in_map_iff. exists col. split; [reflexivity | exact Hin].
  - rewrite List.Forall_forall in Hc. specialize (Hc col Hin).
    unfold series_div_scalar.
    rewrite !length_map, length_zip_with, length_map. lia.
Qed.

Lemma add_Day_agg_of (agg : list AggRow) (stats : list StatRow) :
  add_Day agg = Ok stats -> map agg_of stats = agg.
Proof.
  revert stats. induction agg as [|a agg IH]; intros stats; simpl.
  - intros [= <-]. reflexivity.
  - destruct (astype_int (extract_digits (ag_Condition a))); [|discriminate].
    destruct (add_Day agg) as [rest|]; [|discriminate].
    intros [= <-]. simpl. rewrite (IH rest eq_refl).
    destruct a. reflexivity.
Qed.

Lemma calculate_log2_tpm_labels (df : DataFrame) :
  map fst (l2_samples (calculate_log2_tpm df)) = map fst (counts df).
Proof.
  rewrite calculate_log2_tpm_samples, tpm_table_columns.
  unfold np_log2, frame_add_scalar, rpk_table, frame_div_axis0.
  rewrite !map_map. reflexivity.
Qed.

Lemma melt_ok (t : Log2Frame) :
  ~ In "log2TPM" (map fst (l2_samples t)) -> melt t = Ok (melt_rows t).
Proof.
  intros H. unfold melt.
  destruct (existsb _ _) eqn:E; [|reflexivity].
  apply existsb_exists in E. destruct E as (l & Hl & E).
  apply String.eqb_eq in E. subst l. contradiction.
Qed.

Lemma melt_inv (t : Log2Frame) (rows : list (string * string * R)) :
  melt t = Ok rows ->
  rows = melt_rows t /\ ~ In "log2TPM" (map fst (l2_samples t)).
Proof.
  unfold melt. destruct (existsb _ _) eqn:E; [discriminate|].
  intros [= <-]. split; [reflexivity|]. intros H.
  assert (E' : existsb (String.eqb "log2TPM") (map fst (l2_samples t)) = true).
  { apply existsb_exists. exists "log2TPM". split; [exact H | reflexivity]. }
  congruence.
Qed.

Lemma sorted_stats_inv (df : DataFrame) (sorted : list StatRow) :
  sorted_stats df = Ok sorted ->
  ~ In "log2TPM" (map fst (l2_samples (calculate_log2_tpm df))) /\
  exists stats,
    add_Day (groupby_agg (add_Condition (melt_rows (calculate_log2_tpm df))))
    = Ok stats /\
    sorted = sort_values stats.
Proof.
  unfold sorted_stats. cbv zeta.
  destruct (melt _) as [rows|] eqn:Em; [|discriminate].
  apply melt_inv in Em. destruct Em as [-> Hl].
  destruct (add_Day _) as [stats|] eqn:E; [|discriminate].
  intros [= <-]. split; [exact Hl|]. exists stats. split; reflexivity.
Qed.

Lemma sorted_stats_rows (df : DataFrame) (sorted : list StatRow)
  (r : StatRow) :
  sorted_stats df = Ok sorted -> In r sorted ->
  In (agg_of r)
     (groupby_agg (add_Condition (melt_rows (calculate_log2_tpm df)))).
Proof.
  intros H Hr. apply sorted_stats_inv in H.
  destruct H as (_ & stats & E & ->).
  apply In_sort_by in Hr.
  rewrite <- (add_Day_agg_of _ _ E). apply in_map. exact Hr.
Qed.

Lemma prefix_cons (c a : ascii) (x r : string) :
  String.prefix (String c x) (String a r) = Ascii.eqb c a && String.prefix x r.
Proof.
  cbn [String.prefix].
  destruct (ascii_dec c a) as [->|H].
  - rewrite Ascii.eqb_refl. reflexivity.
  - apply Ascii.eqb_neq in H. rewrite H. reflexivity.
Qed.

Lemma prefix_empty (r : string) : String.prefix "" r = true.
Proof. destruct r; reflexivity. Qed.

(** The condition of a sample name as the script computes it is the prefix
    before the first underscore in the words of the specification. *)
Lemma is_prefix_before_underscore_spec (cond name : string) :
  is_prefix_before_underscore cond name
  = String.eqb (before_underscore name) cond.
Proof.
  unfold is_prefix_before_underscore, before_underscore, has_underscore.
  revert cond. induction name as [|a r IH]; intros [|c cs].
  - reflexivity.
  - cbn. rewrite andb_false_r. reflexivity.
  - cbn [list_ascii_of_string existsb negb andb cut_at].
    change ("" +:+ "_") with "_".
    rewrite prefix_cons, prefix_empty, andb_true_r.
    rewrite (Ascii.eqb_sym "_"%char a).
    destruct (Ascii.eqb a "_"%char); reflexivity.
  - cbn [list_ascii_of_string existsb cut_at].
    change (String c cs +:+ "_") with (String c (cs +:+ "_")).
    rewrite prefix_cons. specialize (IH cs).
    cbn [String.eqb].
    destruct (Ascii.eqb_spec a "_"%char) as [->|Ha].
    + cbn [String.eqb].
      destruct (Ascii.eqb_spec "_"%char c) as [<-|Hc]; [reflexivity|].
      apply Ascii.eqb_neq in Hc. rewrite (Ascii.eqb_sym c "_"%char), Hc.
      cbn. rewrite andb_false_r. reflexivity.
    + cbn [String.eqb]. rewrite (Ascii.eqb_sym c a).
      destruct (Ascii.eqb_spec a c) as [->|Hac].
      * apply Ascii.eqb_neq in Ha. rewrite (Ascii.eqb_sym "_"%char c), Ha.
        cbn [orb andb]. exact IH.
      * cbn [andb orb]. rewrite andb_false_r. reflexivity.
Qed.

(** The example of the specification: [d04_rep1] and [d04_rep2] both have
    the condition [d04], [d07_rep1] has not. *)
Lemma d04_replicates_share_a_condition :
  before_underscore "d04_rep1" = "d04" /\
  before_underscore "d04_rep2" = "d04" /\
  is_prefix_before_underscore "d04" "d04_rep1" = true /\
  is_prefix_before_underscore "d04" "d04_rep2" = true /\
  is_prefix_before_underscore "d04" "d07_rep1" = false /\
  length (spec_values_by_prefix (calculate_log2_tpm replicate_frame)
                                "geneA" "d04") = 2%nat.
Proof. repeat split; reflexivity. Qed.

Lemma spec_values_by_prefix_eq (t : Log2Frame) (gene cond : string) :
  spec_values_by_prefix t gene cond = spec_condition_values t gene cond.
Proof.
  unfold spec_values_by_prefix, spec_condition_values.
  apply flat_map_ext. intros c.
  rewrite is_prefix_before_underscore_spec. reflexivity.
Qed.

(* ================================================================== *)
(** ** Claim about the aggregation *)

(** C4: for a frame with a gene and a sample whose values are defined (no
    negative count, positive gene lengths, no sample with a zero sum of
    reads per kilobase) and whose sample labels are distinct and none of
    [Geneid], [Length], [log2TPM], the long table is formed, and for every
    gene and every condition the table of statistics has exactly one row;
    its mean and standard deviation are the arithmetic mean and the sample
    standard deviation of the gene's log2TPM values in exactly the sample
    columns whose name has the condition as its prefix before the first
    underscore; the rows used for plotting are these rows. *)
Theorem stats_are_mean_and_std_by_condition (df : DataFrame) :
  rectangular df ->
  Geneid df <> [] ->
  counts df <> [] ->
  sample_labels_ok df ->
  values_defined df = true ->
  let t := calculate_log2_tpm df in
  exists plot_data,
    melt t = Ok plot_data /\
    let stats := groupby_agg (add_Condition plot_data) in
    (forall gene col, In gene (Geneid df) -> In col (counts df) ->
       exists r, In r stats /\ ag_Geneid r = gene /\
                 is_prefix_before_underscore (ag_Condition r) (fst col)
                 = true) /\
    List.NoDup (map (fun r => (ag_Geneid r, ag_Condition r)) stats) /\
    (forall r, In r stats ->
       ag_mean r =
         Rmean (spec_values_by_prefix t (ag_Geneid r) (ag_Condition r)) /\
       ag_std r =
         sample_std
           (spec_values_by_prefix t (ag_Geneid r) (ag_Condition r))) /\
    (forall sorted r, sorted_stats df = Ok sorted -> In r sorted ->
       st_mean r =
         Rmean (spec_values_by_prefix t (st_Geneid r) (st_Condition r)) /\
       st_std r =
         sample_std
           (spec_values_by_prefix t (st_Geneid r) (st_Condition r))).
Proof.
  intros Hrect _ _ Hlab _ t.
  exists (melt_rows t). split.
  { apply melt_ok. unfold t. rewrite calculate_log2_tpm_labels.
    unfold sample_labels_ok in Hlab.
    apply List.NoDup_cons_iff in Hlab. destruct Hlab as [_ Hlab].
    apply List.NoDup_cons_iff in Hlab. destruct Hlab as [_ Hlab].
    apply List.NoDup_cons_iff in Hlab. destruct Hlab as [Hlab _].
    exact Hlab. }
  cbv zeta. set (stats := groupby_agg (add_Condition (melt_rows t))).
  assert (Hrows : forall r, In r stats ->
     ag_mean r =
       Rmean (spec_values_by_prefix t (ag_Geneid r) (ag_Condition r)) /\
     ag_std r =
       sample_std (spec_values_by_prefix t (ag_Geneid r) (ag_Condition r))).
  { intros r Hr. apply In_groupby_agg in Hr. destruct Hr as (_ & Hm & Hs).
    rewrite group_values_spec in Hm, Hs.
    rewrite spec_values_by_prefix_eq. split; assumption. }
  split; [|split; [|split]].
  - intros gene col Hg Hc.
    destruct (calculate_log2_tpm_columns df col Hrect Hc) as (vals & Hv & Hl).
    pose proof (melt_covers t gene (fst col, vals) Hg Hv Hl) as Hk.
    simpl in Hk.
    set (k := (gene, before_underscore (fst col))) in *.
    exists {| ag_Geneid := fst k; ag_Condition := snd k;
              ag_mean := Rmean (group_values (add_Condition (melt_rows t)) k);
              ag_std := sample_std (group_values (add_Condition (melt_rows t)) k) |}.
    split; [|split; [reflexivity|]].
    + apply In_groupby_agg. simpl. repeat split. exact Hk.
    + simpl. rewrite is_prefix_before_underscore_spec.
      apply String.eqb_refl.
  - apply NoDup_groupby_agg_keys.
  - exact Hrows.
  - intros sorted r Hs Hr.
    apply (Hrows (agg_of r)). eapply sorted_stats_rows; eassumption.
Qed.

Lemma stats_are_mean_and_std_by_condition_witness :
  let t := calculate_log2_tpm replicate_frame in
  exists plot_data,
    melt t = Ok plot_data /\
    let stats := groupby_agg (add_Condition plot_data) in
    (forall gene col, In gene (Geneid replicate_frame) ->
       In col (counts replicate_frame) ->
       exists r, In r stats /\ ag_Geneid r = gene /\
                 is_prefix_before_underscore (ag_Condition r) (fst col)
                 = true) /\
    List.NoDup (map (fun r => (ag_Geneid r, ag_Condition r)) stats) /\
    (forall r, In r stats ->
       ag_mean r =
         Rmean (spec_values_by_prefix t (ag_Geneid r) (ag_Condition r)) /\
       ag_std r =
         sample_std
           (spec_values_by_prefix t (ag_Geneid r) (ag_Condition r))) /\
    (forall sorted r, sorted_stats replicate_frame = Ok sorted ->
       In r sorted ->
       st_mean r =
         Rmean (spec_values_by_prefix t (st_Geneid r) (st_Condition r)) /\
       st_std r =
         sample_std
           (spec_values_by_prefix t (st_Geneid r) (st_Condition r))).
Proof.
  apply (stats_are_mean_and_std_by_condition replicate_frame).
  - split; [reflexivity|]. repeat constructor.
  - discriminate.
  - discriminate.
  - unfold sample_labels_ok. simpl. distinct_strings.
  - reflexivity.
Defined.

(* ================================================================== *)
(** ** The order of strings and of the rows of [stats] *)

Lemma string_compare_refl (s : string) : String.compare s s = Eq.
Proof.
  induction s as [|c s IH]; simpl; [reflexivity|].
  unfold Ascii.compare. rewrite N.compare_refl. exact IH.
Qed.

Lemma string_compare_Lt_trans (a b c : string) :
  String.compare a b = Lt -> String.compare b c = Lt ->
  String.compare a c = Lt.
Proof.
  revert b c. induction a as [|x a IH]; intros [|y b] [|z c]; simpl;
    try discriminate; try reflexivity.
  unfold Ascii.compare.
  destruct (N.compare_spec (N_of_ascii x) (N_of_ascii y)) as [Exy|Hxy|Hxy];
    try discriminate;
    destruct (N.compare_spec (N_of_ascii y) (N_of_ascii z)) as [Eyz|Hyz|Hyz];
    try discriminate; intros H1 H2.
  - rewrite Exy, Eyz, N.compare_refl. eapply IH; eassumption.
  - rewrite Exy. apply N.compare_lt_iff in Hyz. rewrite Hyz. reflexivity.
  - rewrite <- Eyz. apply N.compare_lt_iff in Hxy. rewrite Hxy. reflexivity.
  - assert (H : (N_of_ascii x < N_of_ascii z)%N) by lia.
    apply N.compare_lt_iff in H. rewrite H. reflexivity.
Qed.

Lemma stat_leb_total (a b : StatRow) :
  stat_leb a b = true \/ stat_leb b a = true.
Proof.
  unfold stat_leb. rewrite (String.compare_antisym (st_Geneid b)).
  destruct (String.compare (st_Geneid a) (st_Geneid b)); simpl; auto.
  destruct (Z.leb_spec (st_Day a) (st_Day b)); [auto|].
  right. apply Z.leb_le. lia.
Qed.

Lemma stat_leb_trans (a b c : StatRow) :
  stat_leb a b = true -> stat_leb b c = true -> stat_leb a c = true.
Proof.
  unfold stat_leb.
  destruct (String.compare (st_Geneid a) (st_Geneid b)) eqn:Eab;
    try discriminate;
    destruct (String.compare (st_Geneid b) (st_Geneid c)) eqn:Ebc;
    try discriminate; intros H1 H2.
  - apply String.compare_eq_iff in Eab, Ebc. rewrite Eab, Ebc.
    rewrite string_compare_refl. apply Z.leb_le.
    apply Z.leb_le in H1, H2. lia.
  - apply String.compare_eq_iff in Eab. rewrite Eab, Ebc. reflexivity.
  - apply String.compare_eq_iff in Ebc. rewrite <- Ebc, Eab. reflexivity.
  - rewrite (string_compare_Lt_trans _ _ _ Eab Ebc). reflexivity.
Qed.

(** Within one gene the sorted table is in the order of [Day]. *)
Lemma gene_stats_by_Day (stats : list StatRow) (gene : string) :
  StronglySorted (fun a b => (st_Day a <= st_Day b)%Z)
                 (gene_stats_of (sort_values stats) gene).
Proof.
  unfold gene_stats_of, sort_values.
  pose proof (sort_by_sorted stat_leb stat_leb_total stat_leb_trans stats)
    as Hs.
  induction Hs as [|r l Hl IH Hr]; simpl; [constructor|].
  destruct (String.eqb (st_Geneid r) gene) eqn:E; [|exact IH].
  constructor; [exact IH|].
  apply List.Forall_forall. intros r' Hr'. apply filter_In in Hr'.
  destruct Hr' as [Hin E'].
  rewrite List.Forall_forall in Hr. specialize (Hr r' Hin).
  apply String.eqb_eq in E, E'. unfold stat_leb in Hr.
  rewrite E, E', string_compare_refl in Hr. apply Z.leb_le. exact Hr.
Qed.

(* ================================================================== *)
(** ** The [Day] column *)

Lemma add_Day_Day (agg : list AggRow) (stats : list StatRow) :
  add_Day agg = Ok stats ->
  Forall (fun r => st_Day r = extracted_integer (st_Condition r)) stats.
Proof.
  revert stats. induction agg as [|a agg IH]; intros stats; simpl.
  - intros [= <-]. constructor.
  - unfold astype_int.
    destruct (extract_digits (ag_Condition a)) as [d|] eqn:E; [|discriminate].
    destruct (int_of_digits d <? int64_bound)%Z; [|discriminate].
    destruct (add_Day agg) as [rest|]; [|discriminate].
    intros [= <-]. constructor; [|apply IH; reflexivity].
    simpl. unfold extracted_integer. rewrite E. reflexivity.
Qed.

Lemma add_Day_ok (agg : list AggRow) :
  (forall r, In r agg ->
     has_digit (ag_Condition r) = true /\
     (extracted_integer (ag_Condition r) < int64_bound)%Z) ->
  exists stats, add_Day agg = Ok stats.
Proof.
  induction agg as [|a agg IH]; intros H; simpl; [eauto|].
  destruct (H a) as [Ha Hb]; [left; reflexivity|].
  unfold has_digit in Ha. unfold extracted_integer in Hb.
  unfold astype_int.
  destruct (extract_digits (ag_Condition a)) as [d|]; [|discriminate].
  apply Z.ltb_lt in Hb. rewrite Hb.
  destruct IH as [rest Hrest]; [intros r Hr; apply H; right; exact Hr|].
  rewrite Hrest. eauto.
Qed.

Lemma add_Day_length (agg : list AggRow) (stats : list StatRow) :
  add_Day agg = Ok stats -> length stats = length agg.
Proof.
  intros H. apply add_Day_agg_of in H. rewrite <- H, length_map. reflexivity.
Qed.

(** The conditions of the long table are the cut labels of the sample
    columns. *)
Lemma melt_conditions (t : Log2Frame) (r : PlotRow) :
  In r (add_Condition (melt_rows t)) ->
  exists col, In col (l2_samples t) /\
              pr_Condition r = before_underscore (fst col).
Proof.
  unfold add_Condition, melt_rows. rewrite in_map_iff.
  intros ([[g s] v] & <- & Hin). apply in_flat_map in Hin.
  destruct Hin as (col & Hcol & Hin). exists col. split; [exact Hcol|].
  apply list_elem_of_In, list_elem_of_lookup in Hin. destruct Hin as [i Hi].
  rewrite lookup_zip_with in Hi.
  destruct (l2_Geneid t !! i); [|discriminate]. simpl in Hi.
  destruct (snd col !! i); [|discriminate]. simpl in Hi.
  injection Hi as _ <- _. reflexivity.
Qed.

Lemma sample_labels_ok_log2TPM (df : DataFrame) :
  sample_labels_ok df -> ~ In "log2TPM" (map fst (counts df)).
Proof.
  unfold sample_labels_ok. intros H.
  apply List.NoDup_cons_iff in H. destruct H as [_ H].
  apply List.NoDup_cons_iff in H. destruct H as [_ H].
  apply List.NoDup_cons_iff in H. destruct H as [H _]. exact H.
Qed.

Lemma dated_digits (name : string) :
  dated name = true ->
  has_digit (before_underscore name) = true /\
  (extracted_integer (before_underscore name) < int64_bound)%Z.
Proof.
  unfold dated. intros H.
  apply andb_prop in H. destruct H as [H Hb].
  apply andb_prop in H. destruct H as [_ Hd].
  apply Z.ltb_lt in Hb. split; assumption.
Qed.

Lemma sorted_stats_ok (df : DataFrame) :
  ~ In "log2TPM" (map fst (counts df)) ->
  (forall col, In col (counts df) ->
     has_digit (before_underscore (fst col)) = true /\
     (extracted_integer (before_underscore (fst col)) < int64_bound)%Z) ->
  exists stats0,
    add_Day (groupby_agg (add_Condition (melt_rows (calculate_log2_tpm df))))
      = Ok stats0 /\
    sorted_stats df = Ok (sort_values stats0).
Proof.
  intros Hl Hd.
  destruct (add_Day_ok
              (groupby_agg (add_Condition (melt_rows (calculate_log2_tpm df)))))
    as [stats0 H0].
  - intros r Hr. apply In_groupby_agg in Hr. destruct Hr as (Hk & _).
    apply in_map_iff in Hk. destruct Hk as (row & Hrow & Hin).
    apply melt_conditions in Hin. destruct Hin as (col & Hcol & Hc).
    injection Hrow as _ <-. rewrite Hc.
    assert (Hl' : In (fst col) (map fst (counts df))).
    { rewrite <- calculate_log2_tpm_labels. apply in_map. exact Hcol. }
    apply in_map_iff in Hl'. destruct Hl' as (col' & <- & Hcol').
    apply Hd. exact Hcol'.
  - exists stats0. split; [exact H0|].
    unfold sorted_stats. cbv zeta.
    rewrite melt_ok by (rewrite calculate_log2_tpm_labels; exact Hl).
    rewrite H0. reflexivity.
Qed.

(** The conditions of a gene, as the mean-line trace lists them, are in
    ascending order of the extracted integer. *)
Lemma mean_trace_ascending (stats0 : list StatRow) (i : nat)
  (gene : string) :
  Forall (fun r => st_Day r = extracted_integer (st_Condition r)) stats0 ->
  ascending_days (tr_x (mean_trace (sort_values stats0) i gene)).
Proof.
  intros HD. unfold ascending_days, mean_trace. cbn [tr_x].
  pose proof (gene_stats_by_Day stats0 gene) as Hs.
  assert (HD' : Forall (fun r => st_Day r = extracted_integer (st_Condition r))
                       (gene_stats_of (sort_values stats0) gene)).
  { apply List.Forall_forall. intros r Hr. unfold gene_stats_of in Hr.
    apply filter_In in Hr. destruct Hr as [Hr _].
    apply In_sort_by in Hr. rewrite List.Forall_forall in HD.
    apply HD. exact Hr. }
  induction Hs as [|r l Hl IH Hr]; simpl; [constructor|].
  inversion HD' as [|r' l' Hr0 Hl0]; subst.
  constructor; [apply IH; exact Hl0|].
  rewrite List.Forall_forall in *. intros d Hd.
  apply in_map_iff in Hd. destruct Hd as (c & <- & Hc).
  apply in_map_iff in Hc. destruct Hc as (r' & <- & Hr').
  rewrite <- Hr0, <- (Hl0 r' Hr'). apply Hr. exact Hr'.
Qed.

Lemma ribbon_trace_x (stats : list StatRow) (i : nat) (gene : string) :
  tr_x (ribbon_trace stats i gene) =
  (tr_x (mean_trace stats i gene) ++ rev (tr_x (mean_trace stats i gene)))%list.
Proof. reflexivity. Qed.

(* ================================================================== *)
(** ** The loops that build the figure *)

Lemma enumerate_lookup {A : Type} (l : list A) (i : nat) :
  enumerate l !! i = (fun a => (i, a)) <$> l !! i.
Proof.
  unfold enumerate. rewrite lookup_zip_with.
  destruct (l !! i) as [a|] eqn:E; simpl.
  - rewrite lookup_seq_lt by (eapply lookup_lt_Some; exact E). reflexivity.
  - destruct (seq 0 (length l) !! i); reflexivity.
Qed.

Lemma enumerate_length {A : Type} (l : list A) :
  length (enumerate l) = length l.
Proof. unfold enumerate. rewrite length_zip_with, length_seq. lia. Qed.

(** The first loop appends one pair of traces per pass. *)
Lemma add_gene_traces_fold (stats : list StatRow)
  (igs : list (nat * string)) (data : list Trace) :
  fold_left (add_gene_traces stats) igs data =
  (data ++ flat_map (fun ig : nat * string =>
                       [ribbon_trace stats (fst ig) (snd ig);
                        mean_trace stats (fst ig) (snd ig)]) igs)%list.
Proof.
  revert data. induction igs as [|ig igs IH]; intros data; simpl.
  - rewrite app_nil_r. reflexivity.
  - rewrite IH. unfold add_gene_traces. rewrite <- !app_assoc. reflexivity.
Qed.

Lemma pairs_length {A B : Type} (f h : A -> B) (l : list A) :
  length (flat_map (fun a => [f a; h a]) l) = (2 * length l)%nat.
Proof. induction l as [|a l IH]; simpl; [reflexivity | rewrite IH; lia]. Qed.

Lemma pairs_lookup {A B : Type} (f h : A -> B) (l : list A) (i : nat) :
  flat_map (fun a => [f a; h a]) l !! (2 * i)%nat = f <$> l !! i /\
  flat_map (fun a => [f a; h a]) l !! (2 * i + 1)%nat = h <$> l !! i.
Proof.
  revert i. induction l as [|a l IH]; intros i.
  - split; reflexivity.
  - destruct i as [|i].
    + split; reflexivity.
    + replace (2 * S i)%nat with (S (S (2 * i))) by lia.
      replace (S (S (2 * i)) + 1)%nat with (S (S (2 * i + 1))) by lia.
      simpl. apply IH.
Qed.

Lemma pairs_lookup_inv {A B : Type} (f h : A -> B) (l : list A) (j : nat)
  (b : B) :
  flat_map (fun a => [f a; h a]) l !! j = Some b ->
  exists a, l !! (j / 2)%nat = Some a /\ (b = f a \/ b = h a).
Proof.
  intros H.
  destruct (Nat.Even_or_Odd j) as [[i ->]|[i ->]].
  - rewrite (proj1 (pairs_lookup f h l i)) in H.
    replace (2 * i / 2)%nat with i by (rewrite Nat.mul_comm, Nat.div_mul; lia).
    destruct (l !! i) as [a|]; [|discriminate].
    injection H as <-. eauto.
  - rewrite (proj2 (pairs_lookup f h l i)) in H.
    replace ((2 * i + 1) / 2)%nat with i.
    2:{ rewrite Nat.mul_comm, Nat.div_add_l by lia. simpl. lia. }
    destruct (l !! i) as [a|]; [|discriminate].
    injection H as <-. eauto.
Qed.

Lemma build_traces_pairs (stats : list StatRow) (unique_genes : list string) :
  build_traces stats unique_genes =
  flat_map (fun ig : nat * string =>
              [ribbon_trace stats (fst ig) (snd ig);
               mean_trace stats (fst ig) (snd ig)])
           (enumerate (take num_to_show unique_genes)).
Proof. unfold build_traces. rewrite add_gene_traces_fold. reflexivity. Qed.

Lemma build_traces_length (stats : list StatRow) (unique_genes : list string) :
  length (build_traces stats unique_genes) =
  (2 * Nat.min (length unique_genes) 200)%nat.
Proof.
  rewrite build_traces_pairs, pairs_length, enumerate_length, length_take.
  unfold num_to_show. lia.
Qed.

Lemma build_traces_lookup (stats : list StatRow) (unique_genes : list string)
  (i : nat) (gene : string) :
  take num_to_show unique_genes !! i = Some gene ->
  build_traces stats unique_genes !! (2 * i)%nat =
    Some (ribbon_trace stats i gene) /\
  build_traces stats unique_genes !! (2 * i + 1)%nat =
    Some (mean_trace stats i gene).
Proof.
  intros H. rewrite build_traces_pairs.
  destruct (pairs_lookup
              (fun ig : nat * string => ribbon_trace stats (fst ig) (snd ig))
              (fun ig : nat * string => mean_trace stats (fst ig) (snd ig))
              (enumerate (take num_to_show unique_genes)) i) as [H1 H2].
  rewrite H1, H2, enumerate_lookup, H. split; reflexivity.
Qed.

(** Only the first pair of traces is visible. *)
Lemma build_traces_visible (stats : list StatRow)
  (unique_genes : list string) (j : nat) (tr : Trace) :
  build_traces stats unique_genes !! j = Some tr ->
  tr_visible tr = bool_decide (j < 2)%nat.
Proof.
  rewrite build_traces_pairs. intros H.
  apply pairs_lookup_inv in H. destruct H as ([i g] & Hi & Htr).
  rewrite enumerate_lookup in Hi.
  destruct (take num_to_show unique_genes !! (j / 2)%nat); [|discriminate].
  injection Hi as <- _.
  assert (Hv : tr_visible tr = Nat.eqb (j / 2) 0)
    by (destruct Htr as [->| ->]; reflexivity).
  rewrite Hv. destruct (Nat.eqb_spec (j / 2) 0) as [E|E].
  - symmetry. apply bool_decide_eq_true.
    destruct (Nat.lt_ge_cases j 2) as [H|H]; [exact H|].
    exfalso. revert E. apply Nat.neq_sym, Nat.lt_neq.
    apply Nat.div_str_pos. lia.
  - symmetry. apply bool_decide_eq_false. intros Hj. apply E.
    apply Nat.div_small. exact Hj.
Qed.

(** The second loop. *)
Lemma build_buttons_from_spec (total_traces : nat)
  (igs : list (nat * string)) (acc : list Button) :
  (forall ig, In ig igs -> (fst ig * 2 + 1 < total_traces)%nat) ->
  exists bs,
    build_buttons_from total_traces igs acc = Ok (acc ++ bs)%list /\
    Forall2 (fun ig b => make_button total_traces ig = Ok b) igs bs.
Proof.
  revert acc. induction igs as [|ig igs IH]; intros acc H; simpl.
  - exists []. rewrite app_nil_r. split; [reflexivity | constructor].
  - assert (Hig : (fst ig * 2 + 1 < total_traces)%nat)
      by (apply H; left; reflexivity).
    assert (Hb : exists b, make_button total_traces ig = Ok b).
    { unfold make_button, list_setitem, num_traces_per_gene.
      rewrite length_replicate.
      destruct (Nat.ltb_spec (fst ig * 2) total_traces); [|lia].
      rewrite length_insert, length_replicate.
      destruct (Nat.ltb_spec (fst ig * 2 + 1) total_traces); [|lia].
      eauto. }
    destruct Hb as [b Hb]. rewrite Hb.
    destruct (IH (acc ++ [b])%list) as (bs & Hbs & HF).
    { intros ig' Hin. apply H. right. exact Hin. }
    exists (b :: bs). rewrite Hbs, <- app_assoc. split; [reflexivity|].
    constructor; assumption.
Qed.

Lemma make_button_spec (total_traces i : nat) (gene : string) (b : Button) :
  make_button total_traces (i, gene) = Ok b ->
  bt_label b = gene /\
  length (bt_visible b) = total_traces /\
  forall j, (j < total_traces)%nat ->
    bt_visible b !! j = Some (bool_decide (j = 2 * i \/ j = 2 * i + 1)%nat).
Proof.
  unfold make_button, list_setitem, num_traces_per_gene. cbn [fst snd].
  rewrite length_replicate.
  destruct (Nat.ltb_spec (i * 2) total_traces) as [H1|]; [|discriminate].
  rewrite length_insert, length_replicate.
  destruct (Nat.ltb_spec (i * 2 + 1) total_traces) as [H2|]; [|discriminate].
  intros [= <-]. cbn [bt_label bt_visible].
  split; [reflexivity|]. split.
  - rewrite !length_insert, length_replicate. reflexivity.
  - intros j Hj.
    destruct (decide (j = i * 2 + 1)%nat) as [->|N1].
    + rewrite list_lookup_insert_eq
        by (rewrite length_insert, length_replicate; exact H2).
      f_equal. symmetry. apply bool_decide_eq_true. lia.
    + rewrite list_lookup_insert_ne by lia.
      destruct (decide (j = i * 2)%nat) as [->|N2].
      * rewrite list_lookup_insert_eq by (rewrite length_replicate; exact H1).
        f_equal. symmetry. apply bool_decide_eq_true. lia.
      * rewrite list_lookup_insert_ne by lia.
        rewrite lookup_replicate_2 by exact Hj.
        f_equal. symmetry. apply bool_decide_eq_false. lia.
Qed.

(** With the traces of the first loop in place the second loop never
    raises. *)
Lemma build_buttons_ok (stats : list StatRow) (unique_genes : list string) :
  exists buttons,
    build_buttons (length (build_traces stats unique_genes)) unique_genes
      = Ok buttons /\
    Forall2 (fun ig b =>
               make_button (length (build_traces stats unique_genes)) ig
                 = Ok b)
            (enumerate (take num_to_show unique_genes)) buttons.
Proof.
  unfold build_buttons.
  destruct (build_buttons_from_spec
              (length (build_traces stats unique_genes))
              (enumerate (take num_to_show unique_genes)) [])
    as (bs & Hbs & HF).
  - intros [i g] Hin. cbn [fst].
    apply list_elem_of_In, list_elem_of_lookup in Hin.
    destruct Hin as [k Hk]. rewrite enumerate_lookup in Hk.
    destruct (take num_to_show unique_genes !! k) eqn:E; [|discriminate].
    injection Hk as <- _.
    apply lookup_lt_Some in E.
    rewrite build_traces_pairs, pairs_length, enumerate_length. lia.
  - exists bs. split; [exact Hbs | exact HF].
Qed.

Lemma unique_nonempty (l : list string) : l <> [] -> unique l <> [].
Proof. destruct l; [congruence | discriminate]. Qed.

(** The figure is built exactly when the table of statistics has a row. *)
Lemma build_figure_ok (stats : list StatRow) :
  stats <> [] ->
  exists buttons layout,
    build_buttons (length (build_traces stats (unique (map st_Geneid stats))))
                  (unique (map st_Geneid stats)) = Ok buttons /\
    update_layout buttons (unique (map st_Geneid stats)) = Ok layout /\
    ly_buttons layout = buttons /\
    build_figure stats =
      Ok {| fig_data := build_traces stats (unique (map st_Geneid stats));
            fig_layout := layout |}.
Proof.
  intros Hne.
  destruct (build_buttons_ok stats (unique (map st_Geneid stats)))
    as (buttons & Hb & _).
  assert (Hu : unique (map st_Geneid stats) <> []).
  { apply unique_nonempty. destruct stats; [congruence | discriminate]. }
  unfold build_figure. cbv zeta. rewrite Hb.
  unfold update_layout.
  destruct (unique (map st_Geneid stats)) as [|g0 gs] eqn:E; [congruence|].
  cbn [lookup list_lookup]. eexists _, _.
  split; [reflexivity|]. split; [reflexivity|]. split; reflexivity.
Qed.


(* ================================================================== *)
(** ** Claims about the figure *)

(** C5: for every gene index [i] among the genes shown, button [i] of the
    dropdown is that gene's button, and its visibility list has one entry
    per trace of the figure, [True] exactly at [2*i] and [2*i+1] (the gene's
    ribbon and mean line). *)
Theorem button_visibility (stats : list StatRow) :
  stats <> [] ->
  exists fig,
    build_figure stats = Ok fig /\
    forall (i : nat) (gene : string),
      take num_to_show (unique (map st_Geneid stats)) !! i = Some gene ->
      exists b,
        ly_buttons (fig_layout fig) !! i = Some b /\
        bt_label b = gene /\
        length (bt_visible b) = length (fig_data fig) /\
        forall j, (j < length (fig_data fig))%nat ->
          bt_visible b !! j =
          Some (bool_decide (j = 2 * i \/ j = 2 * i + 1)%nat).
Proof.
  intros Hne.
  destruct (build_figure_ok stats Hne) as (buttons & layout & Hb & _ & Hl & Hf).
  eexists. split; [exact Hf|]. cbn [fig_data fig_layout]. rewrite Hl.
  intros i gene Hi.
  destruct (build_buttons_ok stats (unique (map st_Geneid stats)))
    as (buttons' & Hb' & HF).
  rewrite Hb in Hb'. injection Hb' as <-.
  assert (He : enumerate (take num_to_show (unique (map st_Geneid stats)))
               !! i = Some (i, gene))
    by (rewrite enumerate_lookup, Hi; reflexivity).
  destruct (Forall2_lookup_l _ _ _ _ _ HF He) as (b & Hbi & Hmk).
  exists b. split; [exact Hbi|].
  apply make_button_spec in Hmk. exact Hmk.
Qed.

Lemma button_visibility_witness :
  exists fig,
    build_figure one_gene_stats = Ok fig /\
    forall (i : nat) (gene : string),
      take num_to_show (unique (map st_Geneid one_gene_stats)) !! i
        = Some gene ->
      exists b,
        ly_buttons (fig_layout fig) !! i = Some b /\
        bt_label b = gene /\
        length (bt_visible b) = length (fig_data fig) /\
        forall j, (j < length (fig_data fig))%nat ->
          bt_visible b !! j =
          Some (bool_decide (j = 2 * i \/ j = 2 * i + 1)%nat).
Proof. apply (button_visibility one_gene_stats). discriminate. Defined.

(** C9, as amended: the dashboard shows the first 200 unique genes of the
    sorted table at most; each contributes a ribbon trace followed by a
    mean-line trace, so there are exactly 2 * min(number of unique genes,
    200) traces; there is one dropdown button per gene shown, that is
    min(number of unique genes, 200) buttons; and only the first gene's two
    traces are visible at the start. *)
Theorem traces_and_buttons (stats : list StatRow) :
  let unique_genes := unique (map st_Geneid stats) in
  let shown := take num_to_show unique_genes in
  let data := build_traces stats unique_genes in
  length shown = Nat.min (length unique_genes) 200 /\
  length data = (2 * Nat.min (length unique_genes) 200)%nat /\
  (forall (i : nat) (gene : string), shown !! i = Some gene ->
     data !! (2 * i)%nat = Some (ribbon_trace stats i gene) /\
     data !! (2 * i + 1)%nat = Some (mean_trace stats i gene)) /\
  (forall (j : nat) (tr : Trace), data !! j = Some tr ->
     tr_visible tr = bool_decide (j < 2)%nat) /\
  (exists buttons,
     build_buttons (length data) unique_genes = Ok buttons /\
     length buttons = Nat.min (length unique_genes) 200 /\
     forall fig, build_figure stats = Ok fig ->
       fig_data fig = data /\ ly_buttons (fig_layout fig) = buttons).
Proof.
  intros unique_genes shown data. subst shown data.
  split; [rewrite length_take; unfold num_to_show; lia|].
  split; [apply build_traces_length|].
  split; [intros i gene; apply build_traces_lookup|].
  split; [intros j tr; apply build_traces_visible|].
  destruct (build_buttons_ok stats unique_genes) as (buttons & Hb & HF).
  exists buttons. split; [exact Hb|]. split.
  - rewrite <- (Forall2_length _ _ _ HF), enumerate_length, length_take.
    unfold num_to_show. lia.
  - intros fig. unfold build_figure. cbv zeta.
    fold unique_genes. rewrite Hb. unfold update_layout.
    destruct (unique_genes !! 0%nat); [|discriminate].
    intros [= <-]. split; reflexivity.
Qed.

Lemma traces_and_buttons_witness :
  build_traces one_gene_stats (unique (map st_Geneid one_gene_stats))
    !! (2 * 0)%nat = Some (ribbon_trace one_gene_stats 0 "geneA") /\
  build_traces one_gene_stats (unique (map st_Geneid one_gene_stats))
    !! (2 * 0 + 1)%nat = Some (mean_trace one_gene_stats 0 "geneA").
Proof.
  pose proof (traces_and_buttons one_gene_stats) as H. cbv zeta in H.
  destruct H as (_ & _ & H & _). apply H. reflexivity.
Defined.

(** C9 as stated fails: with one gene the figure has two traces and one
    button, not as many buttons as traces. *)
Lemma buttons_are_not_as_many_as_traces :
  exists fig,
    build_figure one_gene_stats = Ok fig /\
    length (fig_data fig) =
      (2 * Nat.min (length (unique (map st_Geneid one_gene_stats))) 200)%nat /\
    length (ly_buttons (fig_layout fig)) <> length (fig_data fig).
Proof.
  eexists. split; [reflexivity|]. split; [reflexivity|].
  cbn. discriminate.
Qed.

(** C6, as amended: for a frame with a gene and a sample whose sample
    labels are distinct, none of [Geneid], [Length], [log2TPM], and written
    in ASCII, when every condition name has a digit and the integer
    extracted from it is below [2 ^ 63], the sorted table is produced, and
    for every gene the mean-line trace lists the conditions in ascending
    order of the extracted integer; the ribbon trace lists them in that
    order and then back in reverse, closing the band. *)
Theorem traces_in_day_order (df : DataFrame) :
  rectangular df ->
  Geneid df <> [] ->
  counts df <> [] ->
  sample_labels_ok df ->
  (forall col, In col (counts df) -> dated (fst col) = true) ->
  exists stats,
    sorted_stats df = Ok stats /\
    forall (i : nat) (gene : string),
      take num_to_show (unique (map st_Geneid stats)) !! i = Some gene ->
      exists x ribbon line,
        build_traces stats (unique (map st_Geneid stats)) !! (2 * i)%nat
          = Some ribbon /\
        build_traces stats (unique (map st_Geneid stats)) !! (2 * i + 1)%nat
          = Some line /\
        ascending_days x /\
        tr_x line = x /\
        tr_x ribbon = (x ++ rev x)%list.
Proof.
  intros _ _ _ Hl Hd.
  destruct (sorted_stats_ok df (sample_labels_ok_log2TPM df Hl))
    as (stats0 & H0 & Hs).
  { intros col Hc. apply dated_digits. apply Hd. exact Hc. }
  exists (sort_values stats0). split; [exact Hs|].
  intros i gene Hi.
  destruct (build_traces_lookup (sort_values stats0) _ i gene Hi) as [H1 H2].
  exists (tr_x (mean_trace (sort_values stats0) i gene)),
    (ribbon_trace (sort_values stats0) i gene),
    (mean_trace (sort_values stats0) i gene).
  split; [exact H1|]. split; [exact H2|].
  split; [|split; reflexivity].
  apply mean_trace_ascending. eapply add_Day_Day. exact H0.
Qed.

Lemma replicate_frame_has_digits (col : Column Q) :
  In col (counts replicate_frame) ->
  has_digit (before_underscore (fst col)) = true.
Proof.
  simpl. intros [<-|[<-|[<-|[]]]]; reflexivity.
Qed.

Lemma replicate_frame_labels_ok : sample_labels_ok replicate_frame.
Proof.
  unfold sample_labels_ok. simpl. distinct_strings.
Qed.

Lemma traces_in_day_order_witness :
  exists stats,
    sorted_stats replicate_frame = Ok stats /\
    forall (i : nat) (gene : string),
      take num_to_show (unique (map st_Geneid stats)) !! i = Some gene ->
      exists x ribbon line,
        build_traces stats (unique (map st_Geneid stats)) !! (2 * i)%nat
          = Some ribbon /\
        build_traces stats (unique (map st_Geneid stats)) !! (2 * i + 1)%nat
          = Some line /\
        ascending_days x /\
        tr_x line = x /\
        tr_x ribbon = (x ++ rev x)%list.
Proof.
  apply (traces_in_day_order replicate_frame).
  - split; [reflexivity|]. repeat constructor.
  - discriminate.
  - discriminate.
  - exact replicate_frame_labels_ok.
  - intros col. simpl. intros [<-|[<-|[<-|[]]]]; reflexivity.
Defined.

(** C6 as stated fails: every condition name of this frame has a digit, and
    the first trace plotted, the ribbon of the first gene, lists d04, d07,
    d07, d04. *)
Lemma ribbon_conditions_are_not_ascending :
  (forall col, In col (counts replicate_frame) ->
               has_digit (before_underscore (fst col)) = true) /\
  exists stats ribbon,
    sorted_stats replicate_frame = Ok stats /\
    build_traces stats (unique (map st_Geneid stats)) !! 0%nat = Some ribbon /\
    tr_x ribbon = ["d04"; "d07"; "d07"; "d04"] /\
    ~ ascending_days (tr_x ribbon).
Proof.
  split; [apply replicate_frame_has_digits|].
  eexists _, _. split; [reflexivity|]. split; [reflexivity|].
  split; [reflexivity|].
  unfold ascending_days.
  change (~ StronglySorted Z.le [4; 7; 7; 4]%Z).
  intros H. inversion H as [|a l Hs _]; subst.
  inversion Hs as [|b l1 _ Hall]; subst.
  inversion Hall as [|b1 l2 _ Hall1]; subst.
  inversion Hall1 as [|b2 l3 Hle _]; subst. lia.
Qed.

(* ================================================================== *)
(** ** Reading the table *)

Lemma data_lines_app (l1 l2 : list string) :
  data_lines (l1 ++ l2) = (data_lines l1 ++ data_lines l2)%list.
Proof. unfold data_lines. rewrite List.filter_app, map_app. reflexivity. Qed.

(** A line that begins with ['#'] leaves no trace in the table. *)
Lemma parse_lines_skips_comment (before after : list string)
  (comment : string) :
  parse_lines (before ++ String "#" comment :: after) =
  parse_lines (before ++ after).
Proof.
  unfold parse_lines. rewrite !data_lines_app. reflexivity.
Qed.

Lemma numeric_length (to_number : string -> option Q) (col : list string)
  (qs : list Q) :
  numeric to_number col = Some qs -> length qs = length col.
Proof.
  revert qs. induction col as [|f col IH]; intros qs; simpl.
  - intros [= <-]. reflexivity.
  - destruct (to_number f); [|discriminate].
    destruct (numeric to_number col) as [qs'|]; [|discriminate].
    intros [= <-]. simpl. rewrite (IH qs' eq_refl). reflexivity.
Qed.

Lemma numeric_columns_length (to_number : string -> option Q)
  (rows : list (list string)) (j : nat) (labels : list string)
  (cols : Frame Q) :
  numeric_columns to_number rows j labels = Ok cols ->
  Forall (fun c : Column Q => length (snd c) = length rows) cols.
Proof.
  revert j cols. induction labels as [|l ls IH]; intros j cols; simpl.
  - intros [= <-]. constructor.
  - destruct (numeric to_number (raw_column rows j)) as [col|] eqn:E;
      [|discriminate].
    destruct (numeric_columns to_number rows (S j) ls) as [cols'|] eqn:E';
      [|discriminate].
    intros [= <-]. constructor; [|eapply IH; exact E'].
    simpl. rewrite (numeric_length _ _ _ E).
    unfold raw_column. apply length_map.
Qed.

(** The frame read from a file is rectangular. *)
Lemma featureCounts_frame_rectangular (to_number : string -> option Q)
  (raw : RawFrame) (df : DataFrame) :
  featureCounts_frame to_number raw = Ok df -> rectangular df.
Proof.
  unfold featureCounts_frame.
  destruct (column_index "Geneid" (rf_columns raw)) as [g|]; [|discriminate].
  destruct (column_index "Length" (rf_columns raw)) as [l|]; [|discriminate].
  destruct (numeric to_number (raw_column (rf_rows raw) l)) as [lengths|]
    eqn:El; [|discriminate].
  destruct (numeric_columns to_number (rf_rows raw) 6
                            (drop 6 (rf_columns raw))) as [cols|] eqn:Ec;
    [|discriminate].
  intros [= <-]. unfold rectangular. cbn [Geneid Length counts].
  apply numeric_length in El. apply numeric_columns_length in Ec.
  unfold raw_column in *. rewrite length_map in *. split.
  - congruence.
  - rewrite El. exact Ec.
Qed.

(** A frame with a gene and a sample column gives a table of statistics
    with a row. *)
Lemma sorted_stats_nonempty (df : DataFrame) (stats : list StatRow) :
  rectangular df -> Geneid df <> [] -> counts df <> [] ->
  sorted_stats df = Ok stats -> stats <> [].
Proof.
  intros Hrect Hg Hc Hs Hnil. apply sorted_stats_inv in Hs.
  destruct Hs as (_ & stats0 & E & ->).
  destruct (Geneid df) as [|gene genes] eqn:EG; [congruence|].
  destruct (counts df) as [|col cols] eqn:EC; [congruence|].
  destruct (calculate_log2_tpm_columns df col Hrect) as (vals & Hv & Hl).
  { rewrite EC. left. reflexivity. }
  assert (Hk : In (gene, before_underscore (fst col))
                  (map row_key
                       (add_Condition (melt_rows (calculate_log2_tpm df))))).
  { apply (melt_covers _ gene (fst col, vals)).
    - change (In gene (Geneid df)). rewrite EG. left. reflexivity.
    - exact Hv.
    - exact Hl. }
  assert (Hlen : length (sort_values stats0) = 0%nat) by (rewrite Hnil; reflexivity).
  unfold sort_values in Hlen.
  rewrite sort_by_length, (add_Day_length _ _ E) in Hlen.
  unfold groupby_agg in Hlen. rewrite length_map, sort_by_length in Hlen.
  apply (proj2 (In_unique_by _ key_eqb_spec _ _)) in Hk.
  destruct (unique_by key_eqb _); [destruct Hk | discriminate].
Qed.

(* ================================================================== *)
(** ** Running the script *)

Section Runs.
Variable to_number : string -> option Q.
Variable to_html : Figure -> string.

(** The lines printed by a complete run. *)
Lemma generate_html_dashboard_run (input_file output_html text : string)
  (raw : RawFrame) (df : DataFrame) (stats : list StatRow) (fig : Figure)
  (w : World) :
  files w !! input_file = Some text ->
  parse_table text = Ok raw ->
  featureCounts_frame to_number raw = Ok df ->
  sorted_stats df = Ok stats ->
  build_figure stats = Ok fig ->
  generate_html_dashboard to_number to_html input_file output_html w =
  (Ok tt,
   {| files := <[html_filename output_html := to_html fig]> (files w);
      stdout := stdout w ++
                ["Loading " ++ input_file ++ "...";
                 "Calculating log2(TPM + 1)...";
                 "Aggregating data by condition...";
                 "Generating Interactive Ribbon Plots...";
                 "Done! Dashboard saved to " ++ output_html] |}).
Proof.
  intros Hfile Hparse Hframe Hstats Hfig.
  apply sorted_stats_inv in Hstats.
  destruct Hstats as (Hl & stats0 & Hday & ->).
  unfold generate_html_dashboard, read_csv, plot, mbind, M_bind, bind,
    print, read_text, write_text, lift.
  cbn [files stdout].
  rewrite Hfile, Hparse, Hframe, (melt_ok _ Hl), Hday, Hfig.
  cbn [files stdout]. rewrite <- !app_assoc. reflexivity.
Qed.

(** Whatever happens, the files are left as they were or the dashboard has
    been written. *)
Lemma generate_html_dashboard_files (input_file output_html : string)
  (w : World) :
  files (snd (generate_html_dashboard to_number to_html
                input_file output_html w)) = files w \/
  exists fig,
    files (snd (generate_html_dashboard to_number to_html
                  input_file output_html w)) =
    <[html_filename output_html := to_html fig]> (files w).
Proof.
  unfold generate_html_dashboard, read_csv, plot, mbind, M_bind, bind,
    print, read_text, write_text, lift.
  cbn [files stdout].
  destruct (files w !! input_file) as [text|]; [|left; reflexivity].
  destruct (parse_table text) as [raw|]; [|left; reflexivity].
  destruct (featureCounts_frame to_number raw) as [df|]; [|left; reflexivity].
  destruct (melt _) as [rows|]; [|left; reflexivity].
  destruct (add_Day _) as [stats0|]; [|left; reflexivity].
  destruct (build_figure _) as [fig|]; [|left; reflexivity].
  right. exists fig. reflexivity.
Qed.

Lemma main_files (w : World) :
  files (snd (main to_number to_html w)) = files w \/
  exists fig,
    files (snd (main to_number to_html w)) =
    <[output_filename := to_html fig]> (files w).
Proof.
  unfold main, mbind, M_bind, bind, path_exists.
  destruct (bool_decide (is_Some (files w !! input_filename))).
  - apply (generate_html_dashboard_files input_filename output_filename w).
  - left. reflexivity.
Qed.

End Runs.

(* ================================================================== *)
(** ** Claims about the script as a whole *)

Lemma endswith_app (suffix s : string) : endswith suffix (s ++ suffix) = true.
Proof.
  induction s as [|a s IH].
  - change ("" ++ suffix) with suffix.
    destruct suffix as [|c r]; [reflexivity|].
    cbn [endswith]. rewrite String.eqb_refl. reflexivity.
  - change (String a s ++ suffix) with (String a (s ++ suffix)).
    cbn [endswith]. rewrite IH. apply orb_true_r.
Qed.

(** C2, as amended: take a count file that exists under a plain name, with
    plain ASCII text that parses as a table with distinct labels and, as a
    featureCounts frame, has at least one gene and one sample column, gene
    identifiers that are read as text, values that are defined, and
    distinct sample names, none of [Geneid], [Length], [log2TPM], each with
    a condition that has a digit and gives an integer below [2 ^ 63]; take
    a plain output name ending in [.html].  Then [generate_html_dashboard]
    parses the table (a line that begins with ['#'] is skipped), turns the
    counts into log2(TPM + 1), aggregates by condition, builds the traces
    and the dropdown, and writes one HTML file at the output path,
    printing its five progress lines in this order. *)
Theorem generate_html_dashboard_steps
  (to_number : string -> option Q) (to_html : Figure -> string)
  (input_file stem text : string) (raw : RawFrame) (df : DataFrame)
  (w : World) :
  plain_name input_file = true ->
  files w !! input_file = Some text ->
  plain_text text = true ->
  parse_table text = Ok raw ->
  List.NoDup (rf_columns raw) ->
  featureCounts_frame to_number raw = Ok df ->
  Geneid df <> [] ->
  forallb text_id (Geneid df) = true ->
  counts df <> [] ->
  sample_labels_ok df ->
  (forall col, In col (counts df) -> dated (fst col) = true) ->
  values_defined df = true ->
  plain_name stem = true ->
  (forall before comment after,
     parse_lines (before ++ String "#" comment :: after) =
     parse_lines (before ++ after)) /\
  exists stats fig,
    sorted_stats df = Ok stats /\
    build_figure stats = Ok fig /\
    generate_html_dashboard to_number to_html input_file (stem ++ ".html") w =
    (Ok tt,
     {| files := <[stem ++ ".html" := to_html fig]> (files w);
        stdout := stdout w ++
                  ["Loading " ++ input_file ++ "...";
                   "Calculating log2(TPM + 1)...";
                   "Aggregating data by condition...";
                   "Generating Interactive Ribbon Plots...";
                   "Done! Dashboard saved to " ++ stem ++ ".html"] |}).
Proof.
  intros _ Hfile _ Hparse _ Hframe Hg _ Hc Hl Hd _ _.
  split; [intros; apply parse_lines_skips_comment|].
  destruct (sorted_stats_ok df (sample_labels_ok_log2TPM df Hl))
    as (stats0 & _ & Hs).
  { intros col Hcol. apply dated_digits. apply Hd. exact Hcol. }
  pose proof (featureCounts_frame_rectangular _ _ _ Hframe) as Hrect.
  pose proof (sorted_stats_nonempty df _ Hrect Hg Hc Hs) as Hne.
  destruct (build_figure_ok _ Hne) as (buttons & layout & _ & _ & _ & Hf).
  eexists _, _. split; [exact Hs|]. split; [exact Hf|].
  rewrite (generate_html_dashboard_run to_number to_html input_file
             (stem ++ ".html") text raw df _ _ w Hfile Hparse Hframe Hs Hf).
  unfold html_filename. rewrite endswith_app. reflexivity.
Qed.

Lemma generate_html_dashboard_steps_witness :
  (forall before comment after,
     parse_lines (before ++ String "#" comment :: after) =
     parse_lines (before ++ after)) /\
  exists stats fig,
    sorted_stats replicate_frame = Ok stats /\
    build_figure stats = Ok fig /\
    generate_html_dashboard integer_literal html_stub
      input_filename output_filename (world_with counts_text) =
    (Ok tt,
     {| files := <[output_filename := html_stub fig]>
                   (files (world_with counts_text));
        stdout := stdout (world_with counts_text) ++
                  ["Loading " ++ input_filename ++ "...";
                   "Calculating log2(TPM + 1)...";
                   "Aggregating data by condition...";
                   "Generating Interactive Ribbon Plots...";
                   "Done! Dashboard saved to " ++ output_filename] |}).
Proof.
  eapply (generate_html_dashboard_steps integer_literal html_stub
            input_filename "expression_dashboard" counts_text
            {| rf_columns := ["Geneid"; "Chr"; "Start"; "End"; "Strand";
                              "Length"; "d04_rep1"; "d04_rep2"; "d07_rep1"];
               rf_rows := [["geneA"; "chr"; "1"; "1000"; "+"; "1000";
                            "10"; "20"; "30"];
                           ["geneB"; "chr"; "5"; "2004"; "-"; "2000";
                            "5"; "0"; "7"]] |}
            replicate_frame).
  - reflexivity.
  - reflexivity.
  - reflexivity.
  - reflexivity.
  - simpl. distinct_strings.
  - reflexivity.
  - discriminate.
  - reflexivity.
  - discriminate.
  - unfold sample_labels_ok. simpl. distinct_strings.
  - intros col. simpl. intros [<-|[<-|[<-|[]]]]; reflexivity.
  - reflexivity.
  - reflexivity.
Defined.

(** C2 as stated fails: a readable count file whose samples are named
    [ctrl_rep1] and [treated_rep1] is parsed, normalised and aggregated, and
    the run then ends with [ValueError] at the cast of the missing day,
    before any trace is built or any file written. *)
Lemma undated_samples_give_no_dashboard :
  (exists raw df,
     parse_table undated_text = Ok raw /\
     featureCounts_frame integer_literal raw = Ok df /\
     Geneid df = ["geneA"] /\
     map fst (counts df) = ["ctrl_rep1"; "treated_rep1"]) /\
  generate_html_dashboard integer_literal html_stub
    input_filename output_filename (world_with undated_text) =
  (Raise ValueError,
   {| files := files (world_with undated_text);
      stdout := ["Loading sense_read_counts...";
                 "Calculating log2(TPM + 1)...";
                 "Aggregating data by condition..."] |}) /\
  files (world_with undated_text) !! output_filename = None.
Proof.
  split; [eexists _, _; repeat split; reflexivity|].
  split; reflexivity.
Qed.

(** A count file without gene rows: the run ends with [IndexError] at the
    title of the layout, again before any file is written. *)
Lemma header_only_file_gives_no_dashboard :
  (exists raw df,
     parse_table header_only_text = Ok raw /\
     featureCounts_frame integer_literal raw = Ok df) /\
  generate_html_dashboard integer_literal html_stub
    input_filename output_filename (world_with header_only_text) =
  (Raise IndexError,
   {| files := files (world_with header_only_text);
      stdout := ["Loading sense_read_counts...";
                 "Calculating log2(TPM + 1)...";
                 "Aggregating data by condition...";
                 "Generating Interactive Ribbon Plots..."] |}) /\
  files (world_with header_only_text) !! output_filename = None.
Proof.
  split; [eexists _, _; split; reflexivity|].
  split; reflexivity.
Qed.

(** A sample named [log2TPM]: [melt] refuses it, and the run ends with
    [ValueError] before the aggregation is announced. *)
Lemma sample_named_log2TPM_gives_no_dashboard :
  generate_html_dashboard integer_literal html_stub
    input_filename output_filename (world_with log2TPM_text) =
  (Raise ValueError,
   {| files := files (world_with log2TPM_text);
      stdout := ["Loading sense_read_counts...";
                 "Calculating log2(TPM + 1)..."] |}).
Proof. reflexivity. Qed.

(** A day from [2 ^ 63] on: the cast to a 64-bit integer ends the run with
    [OverflowError]. *)
Lemma day_out_of_range_gives_no_dashboard :
  generate_html_dashboard integer_literal html_stub
    input_filename output_filename (world_with far_day_text) =
  (Raise OverflowError,
   {| files := files (world_with far_day_text);
      stdout := ["Loading sense_read_counts...";
                 "Calculating log2(TPM + 1)...";
                 "Aggregating data by condition..."] |}).
Proof. reflexivity. Qed.

(** An output name without the extension: the dashboard is written next to
    it, under the name with [.html] added. *)
Lemma dashboard_without_extension :
  let w := snd (generate_html_dashboard integer_literal html_stub
                  input_filename "dashboard" (world_with counts_text)) in
  files w !! "dashboard" = None /\
  files w !! "dashboard.html" = Some "<html>".
Proof. split; reflexivity. Qed.

(** C7: the script keeps no state of its own; a run changes no file other
    than the dashboard it writes, so the count file and every other file
    are as before. *)
Theorem main_changes_only_the_dashboard
  (to_number : string -> option Q) (to_html : Figure -> string)
  (w : World) (path : string) :
  path <> output_filename ->
  files (snd (main to_number to_html w)) !! path = files w !! path.
Proof.
  intros Hp.
  destruct (main_files to_number to_html w) as [E|[fig E]]; rewrite E.
  - reflexivity.
  - apply lookup_insert_ne. congruence.
Qed.

Lemma main_changes_only_the_dashboard_witness :
  files (snd (main integer_literal html_stub (world_with counts_text)))
    !! input_filename =
  files (world_with counts_text) !! input_filename.
Proof.
  apply (main_changes_only_the_dashboard integer_literal html_stub
           (world_with counts_text) input_filename).
  discriminate.
Defined.

(** C10: when the file [sense_read_counts] does not exist, the script
    prints its error message and ends; the pipeline is not run, no file is
    created and none is changed. *)
Theorem main_without_input
  (to_number : string -> option Q) (to_html : Figure -> string)
  (w : World) :
  files w !! input_filename = None ->
  main to_number to_html w =
  (Ok tt,
   {| files := files w;
      stdout := stdout w ++ ["Error: sense_read_counts not found."] |}).
Proof.
  intros Hnone. unfold main, mbind, M_bind, bind, path_exists.
  rewrite Hnone.
  rewrite bool_decide_eq_false_2 by (intros [x Hx]; discriminate).
  reflexivity.
Qed.

Lemma main_without_input_witness :
  main integer_literal html_stub no_files =
  (Ok tt,
   {| files := files no_files;
      stdout := stdout no_files ++ ["Error: sense_read_counts not found."] |}).
Proof.
  apply (main_without_input integer_literal html_stub no_files).
  reflexivity.
Defined.
(* ================================================================== *)
(** ** [calculate_log2_tpm] on objects *)

Lemma deref_lookup (h : list object) (r : nat) (o : object) :
  h !! r = Some o -> deref r h = (Ok o, h).
Proof. intros E. unfold deref. rewrite E. reflexivity. Qed.

Lemma lookup_old (h l : list object) (r : nat) (o : object) :
  h !! r = Some o -> (h ++ l)%list !! r = Some o.
Proof. intros E. apply lookup_app_l_Some. exact E. Qed.

Lemma lookup_new (h l : list object) (i : nat) :
  (h ++ l)%list !! (length h + i)%nat = l !! i.
Proof. rewrite lookup_app_r by lia. f_equal. lia. Qed.

Lemma new_after (h l : list object) (o : object) :
  new o (h ++ l)%list = (Ok (length h + length l)%nat, (h ++ (l ++ [o]))%list).
Proof. unfold new. rewrite length_app, app_assoc. reflexivity. Qed.

Lemma assign_new (h l : list object) (i : nat) (o : object) :
  assign (length h + i) o (h ++ l)%list = (Ok tt, (h ++ <[i := o]> l)%list).
Proof.
  unfold assign. f_equal. rewrite insert_app_r_alt by lia.
  f_equal. f_equal. lia.
Qed.

(** The run of [calculate_log2_tpm] on a frame object: ten new objects, the
    last of them the table, and the heap as it was below them. *)
Lemma calculate_log2_tpm_obj_run (h : list object) (r : nat) (df : DataFrame) :
  h !! r = Some (ODataFrame df) ->
  ~ In "Geneid" (map fst (counts df)) ->
  calculate_log2_tpm_obj r h =
  (Ok (length h + 9)%nat,
   (h ++ [ OText (Geneid df);
           ONumbers (Length df);
           OFrame (counts df);
           ONumbers (series_div_scalar (Length df) 1000);
           OFrame (rpk_table df);
           OLabelled (frame_sum_axis0 (rpk_table df));
           OLabelled (scaling_factors df);
           OFrame (tpm_table df);
           OFrame (frame_add_scalar (tpm_table df) 1);
           OLog2 (Some (Geneid df))
                 (l2_samples (calculate_log2_tpm df)) ])%list).
Proof.
  intros Hr Hl.
  assert (Hlab : existsb (String.eqb "Geneid")
                   (map fst (l2_samples (calculate_log2_tpm df))) = false).
  { rewrite calculate_log2_tpm_labels.
    destruct (existsb _ _) eqn:E; [|reflexivity].
    apply existsb_exists in E. destruct E as (l & Hin & E).
    apply String.eqb_eq in E. subst l. contradiction. }
  unfold calculate_log2_tpm_obj.
  rewrite <- (app_nil_r h) at 1.
  assert (Hr' : forall l, (h ++ l)%list !! r = Some (ODataFrame df))
    by (intros l; apply lookup_old; exact Hr).
  unfold mbind at 1, Py_bind at 1, py_bind at 1.
  unfold getitem_Geneid, mbind, Py_bind, py_bind.
  rewrite (deref_lookup _ _ _ (Hr' _)), new_after. cbn [length app Nat.add].
  unfold getitem_Length, mbind, Py_bind, py_bind.
  rewrite (deref_lookup _ _ _ (Hr' _)), new_after. cbn [length app Nat.add].
  unfold iloc_columns_from_6, mbind, Py_bind, py_bind.
  rewrite (deref_lookup _ _ _ (Hr' _)), new_after. cbn [length app Nat.add].
  unfold series_truediv at 1, mbind, Py_bind, py_bind.
  erewrite deref_lookup by (rewrite lookup_new; reflexivity).
  cbv beta iota. rewrite new_after. cbn [length app Nat.add].
  unfold frame_div at 1, mbind, Py_bind, py_bind.
  erewrite deref_lookup by (rewrite lookup_new; reflexivity).
  erewrite deref_lookup by (rewrite lookup_new; reflexivity).
  cbv beta iota. rewrite new_after. cbn [length app Nat.add].
  unfold frame_sum, mbind, Py_bind, py_bind.
  erewrite deref_lookup by (rewrite lookup_new; reflexivity).
  cbv beta iota. rewrite new_after. cbn [length app Nat.add].
  unfold series_truediv, mbind, Py_bind, py_bind.
  erewrite deref_lookup by (rewrite lookup_new; reflexivity).
  cbv beta iota. rewrite new_after. cbn [length app Nat.add].
  unfold frame_div, mbind, Py_bind, py_bind.
  erewrite deref_lookup by (rewrite lookup_new; reflexivity).
  erewrite deref_lookup by (rewrite lookup_new; reflexivity).
  cbv beta iota. rewrite new_after. cbn [length app Nat.add].
  unfold frame_add, mbind, Py_bind, py_bind.
  erewrite deref_lookup by (rewrite lookup_new; reflexivity).
  cbv beta iota. rewrite new_after. cbn [length app Nat.add].
  unfold log2, mbind, Py_bind, py_bind.
  erewrite deref_lookup by (rewrite lookup_new; reflexivity).
  cbv beta iota. rewrite new_after. cbn [length app Nat.add].
  unfold insert_Geneid, mbind, Py_bind, py_bind.
  erewrite deref_lookup by (rewrite lookup_new; reflexivity).
  erewrite deref_lookup by (rewrite lookup_new; reflexivity).
  cbv beta iota.
  change (np_log2 _) with (l2_samples (calculate_log2_tpm df)).
  rewrite Hlab, assign_new. reflexivity.
Qed.

(* ================================================================== *)
(** ** Claim about determinism *)

(** C3: a run of [calculate_log2_tpm] reads the frame it is given and
    nothing else, and changes no object that was there before it: on two
    references to equal frames, in any two heaps, the two runs return
    references to equal tables, which is the table of the frame; every
    object of either heap, the input frame among them, is afterwards as it
    was.  The frame is rectangular with distinct sample labels, none of
    them a label the script uses itself ([Geneid], which [insert] would
    refuse, [Length], [log2TPM]). *)
Theorem calculate_log2_tpm_deterministic (h1 h2 : list object)
  (r1 r2 : nat) (df : DataFrame) :
  rectangular df ->
  sample_labels_ok df ->
  h1 !! r1 = Some (ODataFrame df) ->
  h2 !! r2 = Some (ODataFrame df) ->
  exists (t1 t2 : nat) (h1' h2' : list object) (o : object),
    calculate_log2_tpm_obj r1 h1 = (Ok t1, h1') /\
    calculate_log2_tpm_obj r2 h2 = (Ok t2, h2') /\
    h1' !! t1 = Some o /\ h2' !! t2 = Some o /\
    table_of o = Some (calculate_log2_tpm df) /\
    (forall r o', h1 !! r = Some o' -> h1' !! r = Some o') /\
    (forall r o', h2 !! r = Some o' -> h2' !! r = Some o').
Proof.
  intros _ Hlab H1 H2.
  assert (Hl : ~ In "Geneid" (map fst (counts df))).
  { unfold sample_labels_ok in Hlab.
    apply List.NoDup_cons_iff in Hlab. destruct Hlab as [Hlab _].
    intros H. apply Hlab. right. right. exact H. }
  eexists _, _, _, _, _.
  split; [apply (calculate_log2_tpm_obj_run h1 r1 df H1 Hl)|].
  split; [apply (calculate_log2_tpm_obj_run h2 r2 df H2 Hl)|].
  split; [rewrite lookup_new; reflexivity|].
  split; [rewrite lookup_new; reflexivity|].
  split; [reflexivity|].
  split; intros r o' Hr; apply lookup_old; exact Hr.
Qed.

Lemma calculate_log2_tpm_deterministic_witness :
  exists (t1 t2 : nat) (h1' h2' : list object) (o : object),
    calculate_log2_tpm_obj 1 heap_of_replicate_frame = (Ok t1, h1') /\
    calculate_log2_tpm_obj 0 [ODataFrame replicate_frame] = (Ok t2, h2') /\
    h1' !! t1 = Some o /\ h2' !! t2 = Some o /\
    table_of o = Some (calculate_log2_tpm replicate_frame) /\
    (forall r o', heap_of_replicate_frame !! r = Some o' ->
                  h1' !! r = Some o') /\
    (forall r o', [ODataFrame replicate_frame] !! r = Some o' ->
                  h2' !! r = Some o').
Proof.
  apply (calculate_log2_tpm_deterministic
           heap_of_replicate_frame [ODataFrame replicate_frame] 1 0
           replicate_frame).
  - split; [reflexivity|]. repeat constructor.
  - exact replicate_frame_labels_ok.
  - reflexivity.
  - reflexivity.
Defined.

(* ================================================================== *)
(** ** Further properties of [calculate_log2_tpm] *)

Lemma ln_2_pos : (0 < ln 2)%R.
Proof. rewrite <- ln_1. apply ln_increasing; lra. Qed.

Lemma Rlog2_1 : Rlog2 1 = 0%R.
Proof. unfold Rlog2. rewrite ln_1. unfold Rdiv. apply Rmult_0_l. Qed.

Lemma Rlog2_le (x y : R) : (0 < x)%R -> (x <= y)%R -> (Rlog2 x <= Rlog2 y)%R.
Proof.
  intros Hx Hxy. unfold Rlog2, Rdiv.
  apply Rmult_le_compat_r.
  - left. apply Rinv_0_lt_compat, ln_2_pos.
  - destruct Hxy as [Hlt| ->]; [left; apply ln_increasing; assumption|].
    apply Rle_refl.
Qed.

Lemma Rsum_nonneg (l : list R) :
  Forall (fun v => (0 <= v)%R) l -> (0 <= Rsum l)%R.
Proof.
  induction 1 as [|v l Hv _ IH]; simpl; [apply Rle_refl | lra].
Qed.

Lemma Rsum_ge_member (l : list R) (i : nat) (v : R) :
  Forall (fun v => (0 <= v)%R) l -> l !! i = Some v -> (v <= Rsum l)%R.
Proof.
  intros H. revert i. induction H as [|a l Ha Hl IH]; intros [|i]; simpl;
    try discriminate.
  - intros [= ->]. pose proof (Rsum_nonneg l Hl). lra.
  - intros Hi. specialize (IH i Hi). lra.
Qed.

Lemma Qle_bool_nonneg (q : Q) : Qle_bool 0 q = true -> (0 <= Q2R q)%R.
Proof.
  intros H. apply Qle_bool_iff in H. apply Qle_Rle in H.
  rewrite RMicromega.Q2R_0 in H. exact H.
Qed.

Lemma Qle_bool_pos (q : Q) : negb (Qle_bool q 0) = true -> (0 < Q2R q)%R.
Proof.
  intros H. apply negb_true_iff in H.
  destruct (Qlt_le_dec 0 q) as [Hlt|Hle].
  - apply Qlt_Rlt in Hlt. rewrite RMicromega.Q2R_0 in Hlt. exact Hlt.
  - apply Qle_bool_iff in Hle. congruence.
Qed.

Lemma lengths_positive_nonzero (df : DataFrame) :
  lengths_positive df = true -> lengths_nonzero df = true.
Proof.
  unfold lengths_positive, lengths_nonzero. rewrite !forallb_forall.
  intros H l Hl. specialize (H l Hl).
  apply negb_true_iff. apply negb_true_iff in H.
  destruct (Qeq_bool l 0) eqn:E; [|reflexivity].
  apply Qeq_bool_iff in E.
  assert (Hle : (l <= 0)%Q) by (rewrite E; apply Qle_refl).
  apply Qle_bool_iff in Hle. congruence.
Qed.

Lemma spec_rpk_nonneg (c len : Q) :
  (0 <= Q2R c)%R -> (0 < Q2R len)%R -> (0 <= spec_rpk c len)%R.
Proof.
  intros Hc Hl. unfold spec_rpk.
  apply Rmult_le_pos; [exact Hc|].
  left. apply Rinv_0_lt_compat. lra.
Qed.

Lemma spec_rpk_column_nonneg (col lens : list Q) :
  Forall (fun v => (0 <= Q2R v)%R) col ->
  Forall (fun l => (0 < Q2R l)%R) lens ->
  Forall (fun v => (0 <= v)%R) (zip_with spec_rpk col lens).
Proof.
  intros Hc. revert lens.
  induction Hc as [|c col Hc0 _ IH]; intros lens Hl; simpl; [constructor|].
  destruct Hl as [|l lens Hl0 Hl]; constructor.
  - apply spec_rpk_nonneg; assumption.
  - apply IH. exact Hl.
Qed.

(** The reads per kilobase of a sample, over the reals, are not negative
    and have a positive sum. *)
Lemma spec_rpk_sum_pos (df : DataFrame) (j : nat) (col : Column Q) :
  counts_nonnegative df = true ->
  lengths_positive df = true ->
  rpk_sums_nonzero df = true ->
  counts df !! j = Some col ->
  Forall (fun v => (0 <= v)%R) (zip_with spec_rpk (snd col) (Length df)) /\
  (0 < spec_rpk_sum (snd col) (Length df))%R.
Proof.
  intros Hc Hl Hs Hj.
  assert (Hnn : Forall (fun v => (0 <= v)%R)
                       (zip_with spec_rpk (snd col) (Length df))).
  { apply spec_rpk_column_nonneg.
    - apply List.Forall_forall. intros v Hv. apply Qle_bool_nonneg.
      unfold counts_nonnegative in Hc. rewrite forallb_forall in Hc.
      assert (Hcol : In col (counts df))
        by (apply list_elem_of_In; eapply list_elem_of_lookup_2; exact Hj).
      specialize (Hc col Hcol). rewrite forallb_forall in Hc.
      apply Hc. exact Hv.
    - apply List.Forall_forall. intros l Hin. apply Qle_bool_pos.
      unfold lengths_positive in Hl. rewrite forallb_forall in Hl.
      apply Hl. exact Hin. }
  split; [exact Hnn|].
  pose proof (Rsum_nonneg _ Hnn) as H0.
  assert (Hne : spec_rpk_sum (snd col) (Length df) <> 0%R).
  { unfold spec_rpk_sum.
    rewrite <- Q2R_rpk_column
      by (apply lengths_nonzero_Forall, lengths_positive_nonzero; exact Hl).
    rewrite <- Q2R_Qsum. intros E.
    assert (Hr : rpk_table df !! j =
                 Some (fst col, zip_with Qdiv (snd col)
                                  (series_div_scalar (Length df) 1000)))
      by (rewrite rpk_table_lookup, Hj; reflexivity).
    apply (rpk_sums_nonzero_lookup df j _ Hs Hr). simpl.
    apply eqR_Qeq. rewrite E, RMicromega.Q2R_0. reflexivity. }
  unfold spec_rpk_sum in *. lra.
Qed.

(** X1: a gene without reads in a sample gets exactly 0 there: the
    pseudocount turns a TPM of 0 into log2(1). *)
Theorem zero_count_gives_zero (df : DataFrame) (j i : nat)
  (col : Column Q) (c len : Q) :
  lengths_nonzero df = true ->
  rpk_sums_nonzero df = true ->
  counts df !! j = Some col ->
  snd col !! i = Some c ->
  Length df !! i = Some len ->
  (c == 0)%Q ->
  cell (l2_samples (calculate_log2_tpm df)) j i = Some 0%R.
Proof.
  intros Hlen Hsum Hj Hi Hl Hc.
  rewrite (log2_tpm_cell df j i col c len Hlen Hsum Hj Hi Hl).
  f_equal. rewrite <- Rlog2_1. f_equal.
  unfold spec_tpm, spec_rpk.
  rewrite (Qeq_eqR _ _ Hc), RMicromega.Q2R_0.
  unfold Rdiv. rewrite !Rmult_0_l. apply Rplus_0_l.
Qed.

Lemma zero_count_gives_zero_witness :
  cell (l2_samples (calculate_log2_tpm replicate_frame)) 1 1 = Some 0%R.
Proof.
  apply (zero_count_gives_zero replicate_frame 1 1 ("d04_rep2", [20%Q; 0%Q])
           0%Q 2000%Q); reflexivity.
Defined.

(** A TPM lies between 0 and one million, so a value of the table between
    0 and log2(1000001). *)
Lemma log2_tpm_cell_bounds (df : DataFrame) (j i : nat) (v : R) :
  counts_nonnegative df = true ->
  lengths_positive df = true ->
  rpk_sums_nonzero df = true ->
  cell (l2_samples (calculate_log2_tpm df)) j i = Some v ->
  (0 <= v <= Rlog2 1000001)%R.
Proof.
  intros Hc Hl Hs Hv.
  pose proof (lengths_positive_nonzero df Hl) as Hnz.
  assert (Hcell : exists col c len,
            counts df !! j = Some col /\ snd col !! i = Some c /\
            Length df !! i = Some len).
  { unfold cell in Hv. rewrite calculate_log2_tpm_samples in Hv.
    unfold np_log2, frame_add_scalar in Hv.
    rewrite !lookup_map, tpm_table_lookup, rpk_table_lookup in Hv.
    destruct (counts df !! j) as [col|] eqn:Ej; [|discriminate].
    simpl in Hv. unfold series_div_scalar in Hv.
    rewrite !lookup_map, lookup_zip_with in Hv.
    destruct (snd col !! i) as [c|] eqn:Ei; [|discriminate]. simpl in Hv.
    rewrite lookup_map in Hv.
    destruct (Length df !! i) as [len|] eqn:El; [|discriminate].
    exists col, c, len. split; [reflexivity|]. split; [exact Ei | reflexivity]. }
  destruct Hcell as (col & c & len & Hj & Hi & Hlen).
  rewrite (log2_tpm_cell df j i col c len Hnz Hs Hj Hi Hlen) in Hv.
  injection Hv as <-.
  destruct (spec_rpk_sum_pos df j col Hc Hl Hs Hj) as [Hnn Hpos].
  assert (Hri : zip_with spec_rpk (snd col) (Length df) !! i =
                Some (spec_rpk c len))
    by (rewrite lookup_zip_with, Hi; simpl; rewrite Hlen; reflexivity).
  assert (H0 : (0 <= spec_rpk c len)%R).
  { rewrite List.Forall_forall in Hnn. apply Hnn.
    apply list_elem_of_In. eapply list_elem_of_lookup_2. exact Hri. }
  pose proof (Rsum_ge_member _ i _ Hnn Hri) as Hle.
  fold (spec_rpk_sum (snd col) (Length df)) in Hle.
  assert (Ht : (0 <= spec_tpm (snd col) (Length df) c len <= 1000000)%R).
  { unfold spec_tpm. set (S := spec_rpk_sum _ _) in *.
    set (r := spec_rpk c len) in *.
    replace (r / (S / 1000000))%R with (1000000 * (r / S))%R
      by (field; lra).
    assert (0 <= r / S <= 1)%R.
    { split.
      - apply Rmult_le_pos; [exact H0|]. left. apply Rinv_0_lt_compat, Hpos.
      - apply (Rmult_le_reg_r S); [exact Hpos|].
        replace (r / S * S)%R with r by (field; lra). lra. }
    lra. }
  split.
  - rewrite <- Rlog2_1. apply Rlog2_le; lra.
  - apply Rlog2_le; lra.
Qed.


Lemma Rsum_bounds (l : list R) (lo hi : R) :
  Forall (fun v => (lo <= v <= hi)%R) l ->
  (INR (length l) * lo <= Rsum l <= INR (length l) * hi)%R.
Proof.
  induction 1 as [|v l Hv _ IH]; [simpl; lra|].
  cbn [length Rsum fold_right]. rewrite S_INR.
  change (fold_right Rplus 0%R l) with (Rsum l). lra.
Qed.

Lemma Rmean_bounds (l : list R) (lo hi : R) :
  l <> [] -> Forall (fun v => (lo <= v <= hi)%R) l ->
  (lo <= Rmean l <= hi)%R.
Proof.
  intros Hne H. pose proof (Rsum_bounds l lo hi H) as Hs.
  assert (Hn : (0 < INR (length l))%R).
  { apply lt_0_INR. destruct l; [congruence | simpl; lia]. }
  unfold Rmean. split.
  - apply (Rmult_le_reg_r (INR (length l))); [exact Hn|].
    replace (Rsum l / INR (length l) * INR (length l))%R with (Rsum l)
      by (field; lra).
    lra.
  - apply (Rmult_le_reg_r (INR (length l))); [exact Hn|].
    replace (Rsum l / INR (length l) * INR (length l))%R with (Rsum l)
      by (field; lra).
    lra.
Qed.

Lemma spec_condition_values_cells (t : Log2Frame) (g c : string) (v : R) :
  In v (spec_condition_values t g c) ->
  exists j i, cell (l2_samples t) j i = Some v.
Proof.
  unfold spec_condition_values. intros H. apply in_flat_map in H.
  destruct H as (col & Hcol & Hv).
  destruct (String.eqb (before_underscore (fst col)) c); [|destruct Hv].
  apply in_map_iff in Hv. destruct Hv as ([g' v'] & <- & Hin).
  apply filter_In in Hin. destruct Hin as [Hin _].
  apply list_elem_of_In, list_elem_of_lookup in Hin. destruct Hin as [i Hi].
  rewrite lookup_zip_with in Hi.
  destruct (l2_Geneid t !! i); [|discriminate]. simpl in Hi.
  destruct (snd col !! i) as [v1|] eqn:Ev; [|discriminate].
  injection Hi as _ ->.
  apply list_elem_of_In, list_elem_of_lookup in Hcol.
  destruct Hcol as [j Hj].
  exists j, i. unfold cell. rewrite Hj. exact Ev.
Qed.

Lemma group_values_nonempty (plot_data : list PlotRow) (k : key) :
  In k (map row_key plot_data) -> group_values plot_data k <> [].
Proof.
  intros H. apply in_map_iff in H. destruct H as (r & Hk & Hr).
  unfold group_values. intros E. apply map_eq_nil in E.
  assert (Hin : In r (List.filter (fun r0 => key_eqb (row_key r0) k)
                                  plot_data)).
  { apply filter_In. split; [exact Hr|]. apply key_eqb_spec. exact Hk. }
  rewrite E in Hin. destruct Hin.
Qed.

(** X2: with no negative count, positive gene lengths and a nonzero sum of
    reads per kilobase in every sample, every value returned lies between 0
    and log2(1000001) (a TPM is between 0 and one million), and so does
    every mean that is plotted. *)
Theorem log2_tpm_bounds (df : DataFrame) :
  counts_nonnegative df = true ->
  lengths_positive df = true ->
  rpk_sums_nonzero df = true ->
  (forall j i v,
     cell (l2_samples (calculate_log2_tpm df)) j i = Some v ->
     (0 <= v <= Rlog2 1000001)%R) /\
  (forall stats r,
     sorted_stats df = Ok stats -> In r stats ->
     (0 <= st_mean r <= Rlog2 1000001)%R).
Proof.
  intros Hc Hl Hs. split.
  - intros j i v. apply log2_tpm_cell_bounds; assumption.
  - intros stats r Hstats Hr.
    pose proof (sorted_stats_rows df stats r Hstats Hr) as Hin.
    apply In_groupby_agg in Hin. destruct Hin as (Hk & Hm & _).
    cbn [agg_of ag_mean ag_Geneid ag_Condition] in Hk, Hm.
    rewrite Hm. apply Rmean_bounds.
    + apply group_values_nonempty. exact Hk.
    + rewrite group_values_spec. apply List.Forall_forall. intros v Hv.
      apply spec_condition_values_cells in Hv. destruct Hv as (j & i & Hv).
      apply (log2_tpm_cell_bounds df j i v Hc Hl Hs Hv).
Qed.

Lemma log2_tpm_bounds_witness :
  (forall j i v,
     cell (l2_samples (calculate_log2_tpm replicate_frame)) j i = Some v ->
     (0 <= v <= Rlog2 1000001)%R) /\
  (forall stats r,
     sorted_stats replicate_frame = Ok stats -> In r stats ->
     (0 <= st_mean r <= Rlog2 1000001)%R).
Proof.
  apply (log2_tpm_bounds replicate_frame); reflexivity.
Defined.

(** X3: of two genes with the same count in a sample, the longer one gets
    the lower (or equal) value: reads are counted per kilobase. *)
Theorem longer_gene_lower_value (df : DataFrame) (j i k : nat)
  (col : Column Q) (c len_i len_k : Q) :
  counts_nonnegative df = true ->
  lengths_positive df = true ->
  rpk_sums_nonzero df = true ->
  counts df !! j = Some col ->
  snd col !! i = Some c ->
  snd col !! k = Some c ->
  Length df !! i = Some len_i ->
  Length df !! k = Some len_k ->
  (len_i <= len_k)%Q ->
  exists vi vk,
    cell (l2_samples (calculate_log2_tpm df)) j i = Some vi /\
    cell (l2_samples (calculate_log2_tpm df)) j k = Some vk /\
    (vk <= vi)%R.
Proof.
  intros Hc Hl Hs Hj Hi Hk Hli Hlk Hle.
  pose proof (lengths_positive_nonzero df Hl) as Hnz.
  rewrite (log2_tpm_cell df j i col c len_i Hnz Hs Hj Hi Hli).
  rewrite (log2_tpm_cell df j k col c len_k Hnz Hs Hj Hk Hlk).
  eexists _, _. split; [reflexivity|]. split; [reflexivity|].
  destruct (spec_rpk_sum_pos df j col Hc Hl Hs Hj) as [_ Hpos].
  assert (Hpos_len : forall n l, Length df !! n = Some l -> (0 < Q2R l)%R).
  { intros n l Hn. apply Qle_bool_pos.
    unfold lengths_positive in Hl. rewrite forallb_forall in Hl.
    apply Hl, list_elem_of_In. eapply list_elem_of_lookup_2. exact Hn. }
  pose proof (Hpos_len i len_i Hli) as Hpi.
  pose proof (Hpos_len k len_k Hlk) as Hpk.
  assert (Hc0 : (0 <= Q2R c)%R).
  { apply Qle_bool_nonneg.
    unfold counts_nonnegative in Hc. rewrite forallb_forall in Hc.
    assert (Hcol : In col (counts df))
      by (apply list_elem_of_In; eapply list_elem_of_lookup_2; exact Hj).
    specialize (Hc col Hcol). rewrite forallb_forall in Hc.
    apply Hc, list_elem_of_In. eapply list_elem_of_lookup_2. exact Hi. }
  apply Qle_Rle in Hle.
  assert (Hr : (spec_rpk c len_k <= spec_rpk c len_i)%R).
  { unfold spec_rpk.
    replace (Q2R c / (Q2R len_k / 1000))%R
      with (1000 * Q2R c * / Q2R len_k)%R by (field; lra).
    replace (Q2R c / (Q2R len_i / 1000))%R
      with (1000 * Q2R c * / Q2R len_i)%R by (field; lra).
    apply Rmult_le_compat_l; [lra|].
    apply Rinv_le_contravar; assumption. }
  pose proof (spec_rpk_nonneg c len_k Hc0 Hpk) as Hk0.
  unfold spec_tpm. set (S := spec_rpk_sum _ _) in *.
  assert (HS : (0 < / (S / 1000000))%R)
    by (apply Rinv_0_lt_compat; lra).
  apply Rlog2_le.
  - assert (0 <= spec_rpk c len_k / (S / 1000000))%R
      by (apply Rmult_le_pos; lra).
    lra.
  - apply Rplus_le_compat_r. unfold Rdiv at 1 3.
    apply Rmult_le_compat_r; lra.
Qed.

Lemma longer_gene_lower_value_witness :
  exists vi vk,
    cell (l2_samples (calculate_log2_tpm same_count_frame)) 0 0 = Some vi /\
    cell (l2_samples (calculate_log2_tpm same_count_frame)) 0 1 = Some vk /\
    (vk <= vi)%R.
Proof.
  apply (longer_gene_lower_value same_count_frame 0 0 1
           ("d04_rep1", [10%Q; 10%Q]) 10%Q 1000%Q 2000%Q);
    try reflexivity.
  intros E. vm_compute in E. discriminate E.
Defined.

(** *** Sequencing depth *)

Lemma Qsum_scaled (k : Q) (l l' : list Q) :
  Forall2 (fun v v' => (v' == k * v)%Q) l l' ->
  (Qsum l' == k * Qsum l)%Q.
Proof.
  induction 1 as [|v v' l l' Hv _ IH]; simpl.
  - ring.
  - rewrite Hv, IH. ring.
Qed.

Lemma rpk_scaled (k : Q) (col col' d : list Q) :
  Forall2 (fun v v' => (v' == k * v)%Q) col col' ->
  Forall2 (fun v v' => (v' == k * v)%Q)
          (zip_with Qdiv col d) (zip_with Qdiv col' d).
Proof.
  intros H. revert d.
  induction H as [|v v' col col' Hv _ IH]; intros [|x d]; simpl;
    constructor.
  - rewrite Hv. unfold Qdiv. ring.
  - apply IH.
Qed.

Lemma tpm_scaled (k : Q) (r r' : list Q) :
  ~ (k == 0)%Q -> ~ (Qsum r == 0)%Q ->
  Forall2 (fun v v' => (v' == k * v)%Q) r r' ->
  Forall2 Qeq (series_div_scalar r (Qsum r / 1000000))
              (series_div_scalar r' (Qsum r' / 1000000)).
Proof.
  intros Hk Hs H.
  pose proof (Qsum_scaled k r r' H) as HS.
  set (S := Qsum r) in *. set (S' := Qsum r') in *.
  clearbody S S'. unfold series_div_scalar.
  induction H as [|v v' r r' Hv _ IH]; simpl; constructor; [|exact IH].
  rewrite Hv, HS. field. split; [exact Hs | exact Hk].
Qed.

Lemma tpm_table_depth_scaled (lens : list Q) (f f' : Frame Q) :
  forallb (fun e : string * Q => negb (Qeq_bool (snd e) 0))
          (frame_sum_axis0
             (frame_div_axis0 f (series_div_scalar lens 1000))) = true ->
  Forall2 depth_scaled f f' ->
  Forall2 column_equal
    (map (fun c : Column Q =>
            (fst c, series_div_scalar (snd c) (Qsum (snd c) / 1000000)))
         (frame_div_axis0 f (series_div_scalar lens 1000)))
    (map (fun c : Column Q =>
            (fst c, series_div_scalar (snd c) (Qsum (snd c) / 1000000)))
         (frame_div_axis0 f' (series_div_scalar lens 1000))).
Proof.
  intros Hs H. induction H as [|c c' f f' [Hn (k & Hk & Hv)] _ IH];
    simpl in *; constructor.
  - apply andb_true_iff in Hs. destruct Hs as [Hs _].
    split; simpl; [exact Hn|].
    apply (tpm_scaled k); [exact Hk | apply Qeq_bool_nonzero; exact Hs |].
    apply rpk_scaled. exact Hv.
  - apply IH. apply andb_true_iff in Hs. tauto.
Qed.

(** X4: the values do not depend on sequencing depth: multiplying all the
    counts of a sample by one nonzero factor, sample by sample, leaves the
    table returned unchanged. *)
Theorem depth_scaling_invariance (df df' : DataFrame) :
  rpk_sums_nonzero df = true ->
  depth_scaled_frame df df' ->
  calculate_log2_tpm df' = calculate_log2_tpm df.
Proof.
  intros Hs (Hg & Hl & Hc).
  change (mkLog2Frame (Geneid df')
                      (np_log2 (frame_add_scalar (tpm_table df') 1)) =
          mkLog2Frame (Geneid df)
                      (np_log2 (frame_add_scalar (tpm_table df) 1))).
  rewrite <- Hg. f_equal. symmetry. apply np_log2_proper.
  rewrite !tpm_table_columns. unfold rpk_table. rewrite <- Hl.
  apply tpm_table_depth_scaled; [exact Hs | exact Hc].
Qed.

Lemma depth_scaling_invariance_witness :
  calculate_log2_tpm deeper_frame = calculate_log2_tpm replicate_frame.
Proof.
  apply (depth_scaling_invariance replicate_frame deeper_frame).
  - reflexivity.
  - split; [reflexivity|]. split; [reflexivity|].
    simpl. repeat constructor; simpl.
    + exists 3%Q. split; [intros E; vm_compute in E; discriminate E|].
      repeat constructor; reflexivity.
    + exists 1%Q. split; [intros E; vm_compute in E; discriminate E|].
      repeat constructor; reflexivity.
    + exists (1 # 2)%Q. split; [intros E; vm_compute in E; discriminate E|].
      repeat constructor; reflexivity.
Defined.

(** X5: the table returned has the shape of the frame: the gene
    identifiers, the sample labels in their order and, for a rectangular
    frame, one value per gene in every sample column. *)
Theorem calculate_log2_tpm_shape (df : DataFrame) :
  rectangular df ->
  l2_Geneid (calculate_log2_tpm df) = Geneid df /\
  map fst (l2_samples (calculate_log2_tpm df)) = map fst (counts df) /\
  Forall (fun c : Column R => length (snd c) = length (Geneid df))
         (l2_samples (calculate_log2_tpm df)).
Proof.
  intros [Hg Hc]. split; [reflexivity|].
  split; [apply calculate_log2_tpm_labels|].
  rewrite calculate_log2_tpm_samples, tpm_table_columns.
  unfold np_log2, frame_add_scalar, rpk_table, frame_div_axis0.
  rewrite !map_map. cbn [fst snd].
  apply List.Forall_forall. intros c Hin. apply in_map_iff in Hin.
  destruct Hin as (col & <- & Hcol). cbn [snd].
  rewrite List.Forall_forall in Hc. specialize (Hc col Hcol).
  unfold series_div_scalar.
  rewrite !length_map, length_zip_with, length_map. lia.
Qed.

Lemma calculate_log2_tpm_shape_witness :
  l2_Geneid (calculate_log2_tpm replicate_frame) = ["geneA"; "geneB"] /\
  map fst (l2_samples (calculate_log2_tpm replicate_frame)) =
    ["d04_rep1"; "d04_rep2"; "d07_rep1"] /\
  Forall (fun c : Column R => length (snd c) = 2%nat)
         (l2_samples (calculate_log2_tpm replicate_frame)).
Proof.
  apply (calculate_log2_tpm_shape replicate_frame).
  split; [reflexivity|]. repeat constructor.
Defined.

(* ================================================================== *)
(** ** Further properties of the figure *)

Lemma sample_std_nonneg (l : list R) (s : R) :
  sample_std l = Some s -> (0 <= s)%R.
Proof.
  unfold sample_std. destruct (length l <? 2)%nat; [discriminate|].
  intros [= <-]. apply sqrt_pos.
Qed.

Lemma sorted_stats_std_nonneg (df : DataFrame) (stats : list StatRow)
  (r : StatRow) :
  sorted_stats df = Ok stats -> In r stats -> (0 <= fillna0 (st_std r))%R.
Proof.
  intros Hs Hr.
  pose proof (sorted_stats_rows df stats r Hs Hr) as Hin.
  apply In_groupby_agg in Hin. destruct Hin as (_ & _ & Hstd).
  simpl in Hstd. destruct (st_std r) as [s|]; simpl; [|apply Rle_refl].
  symmetry in Hstd. apply sample_std_nonneg in Hstd. exact Hstd.
Qed.

Lemma Forall2_map_same {A B : Type} (P : B -> B -> Prop) (f g : A -> B)
  (l : list A) :
  (forall a, In a l -> P (f a) (g a)) -> Forall2 P (map f l) (map g l).
Proof.
  induction l as [|a l IH]; intros H; simpl; constructor.
  - apply H. left. reflexivity.
  - apply IH. intros b Hb. apply H. right. exact Hb.
Qed.

(** X6: in the figure of a run the shaded band encloses the mean line: the
    ribbon's [y] is an upper edge followed by a lower edge reversed, with
    one point each per condition of the gene, the lower edge never above the
    mean and the upper edge never below it; in both traces [x] and [y] have
    the same length. *)
Theorem ribbon_encloses_mean (df : DataFrame) (stats : list StatRow)
  (i : nat) (gene : string) :
  sorted_stats df = Ok stats ->
  exists upper lower : list R,
    tr_y (ribbon_trace stats i gene) = (upper ++ rev lower)%list /\
    Forall2 Rle lower (tr_y (mean_trace stats i gene)) /\
    Forall2 Rle (tr_y (mean_trace stats i gene)) upper /\
    length (tr_x (ribbon_trace stats i gene)) =
      length (tr_y (ribbon_trace stats i gene)) /\
    length (tr_x (mean_trace stats i gene)) =
      length (tr_y (mean_trace stats i gene)).
Proof.
  intros Hs.
  exists (map (fun r => (st_mean r + fillna0 (st_std r))%R)
              (gene_stats_of stats gene)),
         (map (fun r => (st_mean r - fillna0 (st_std r))%R)
              (gene_stats_of stats gene)).
  assert (Hstd : forall r, In r (gene_stats_of stats gene) ->
                           (0 <= fillna0 (st_std r))%R).
  { intros r Hr. unfold gene_stats_of in Hr. apply filter_In in Hr.
    apply (sorted_stats_std_nonneg df stats r Hs). tauto. }
  split; [reflexivity|].
  split; [|split; [|split]]; cbn [tr_x tr_y ribbon_trace mean_trace].
  - apply Forall2_map_same. intros r Hr. specialize (Hstd r Hr). lra.
  - apply Forall2_map_same. intros r Hr. specialize (Hstd r Hr). lra.
  - rewrite !length_app, !length_rev, !length_map. reflexivity.
  - rewrite !length_map. reflexivity.
Qed.

Lemma ribbon_encloses_mean_witness :
  exists stats,
    sorted_stats replicate_frame = Ok stats /\
    exists upper lower : list R,
      tr_y (ribbon_trace stats 0 "geneA") = (upper ++ rev lower)%list /\
      Forall2 Rle lower (tr_y (mean_trace stats 0 "geneA")) /\
      Forall2 Rle (tr_y (mean_trace stats 0 "geneA")) upper /\
      length (tr_x (ribbon_trace stats 0 "geneA")) =
        length (tr_y (ribbon_trace stats 0 "geneA")) /\
      length (tr_x (mean_trace stats 0 "geneA")) =
        length (tr_y (mean_trace stats 0 "geneA")).
Proof.
  eexists. split; [reflexivity|].
  apply (ribbon_encloses_mean replicate_frame _ 0 "geneA"). reflexivity.
Defined.

(** What a figure that was built consists of. *)
Lemma build_figure_inv (stats : list StatRow) (fig : Figure) :
  build_figure stats = Ok fig ->
  fig_data fig = build_traces stats (unique (map st_Geneid stats)) /\
  Forall2 (fun ig b => make_button (length (fig_data fig)) ig = Ok b)
          (enumerate (take num_to_show (unique (map st_Geneid stats))))
          (ly_buttons (fig_layout fig)) /\
  exists gene0,
    unique (map st_Geneid stats) !! 0%nat = Some gene0 /\
    ly_title (fig_layout fig) =
      "Mean Expression Profile for " ++ gene0 ++ " (± SD)".
Proof.
  intros H.
  destruct (build_buttons_ok stats (unique (map st_Geneid stats)))
    as (buttons & Hb & HF).
  unfold build_figure in H. cbv zeta in H. rewrite Hb in H.
  unfold update_layout in H.
  destruct (unique (map st_Geneid stats) !! 0%nat) as [gene0|] eqn:E;
    [|discriminate].
  injection H as <-. cbn [fig_data fig_layout ly_buttons ly_title].
  split; [reflexivity|]. split; [exact HF|].
  exists gene0. split; reflexivity.
Qed.

Lemma enumerate_snd {A : Type} (l : list A) : map snd (enumerate l) = l.
Proof.
  apply list_eq. intros i.
  rewrite lookup_map, enumerate_lookup.
  destruct (l !! i); reflexivity.
Qed.

Lemma make_button_label_title (total_traces : nat) (ig : nat * string)
  (b : Button) :
  make_button total_traces ig = Ok b ->
  bt_label b = snd ig /\
  bt_title b = "Mean Expression Profile for " ++ snd ig ++ " (± SD)".
Proof.
  unfold make_button.
  destruct (list_setitem _ _ _) as [v1|]; [|discriminate].
  destruct (list_setitem _ _ _) as [v2|]; [|discriminate].
  intros [= <-]. split; reflexivity.
Qed.

Lemma button_labels (total_traces : nat) (igs : list (nat * string))
  (bs : list Button) :
  Forall2 (fun ig b => make_button total_traces ig = Ok b) igs bs ->
  map bt_label bs = map snd igs.
Proof.
  induction 1 as [|ig b igs bs Hb _ IH]; simpl; [reflexivity|].
  rewrite IH. f_equal. apply (make_button_label_title _ _ _ Hb).
Qed.

Lemma NoDup_take {A : Type} (n : nat) (l : list A) :
  List.NoDup l -> List.NoDup (take n l).
Proof.
  intros H. rewrite <- (take_drop n l) in H.
  apply List.NoDup_app_remove_r in H. exact H.
Qed.

(** X7: the dropdown lists each gene once: the button labels are the first
    200 distinct gene identifiers of the table in their order, without
    repetition, however many rows a gene has. *)
Theorem button_labels_distinct (stats : list StatRow) (fig : Figure) :
  build_figure stats = Ok fig ->
  map bt_label (ly_buttons (fig_layout fig)) =
    take num_to_show (unique (map st_Geneid stats)) /\
  List.NoDup (map bt_label (ly_buttons (fig_layout fig))) /\
  forall gene, In gene (map bt_label (ly_buttons (fig_layout fig))) ->
               exists r, In r stats /\ st_Geneid r = gene.
Proof.
  intros H. destruct (build_figure_inv stats fig H) as (_ & HF & _).
  assert (Hl : map bt_label (ly_buttons (fig_layout fig)) =
               take num_to_show (unique (map st_Geneid stats))).
  { rewrite (button_labels _ _ _ HF). apply enumerate_snd. }
  split; [exact Hl|]. rewrite Hl. split.
  - apply NoDup_take. apply NoDup_unique_by. apply String.eqb_eq.
  - intros gene Hg.
    assert (Hu : In gene (unique (map st_Geneid stats))).
    { rewrite <- (take_drop num_to_show (unique (map st_Geneid stats))).
      apply in_or_app. left. exact Hg. }
    apply (proj1 (In_unique_by _ String.eqb_eq _ _)) in Hu.
    apply in_map_iff in Hu. destruct Hu as (r & Hr & Hin). eauto.
Qed.

Lemma button_labels_distinct_witness :
  exists fig,
    build_figure two_gene_stats = Ok fig /\
    map bt_label (ly_buttons (fig_layout fig)) = ["geneA"; "geneB"] /\
    List.NoDup (map bt_label (ly_buttons (fig_layout fig))).
Proof.
  eexists. split; [reflexivity|].
  pose proof (button_labels_distinct two_gene_stats _ eq_refl) as H.
  split; [apply H | apply H].
Defined.

(** X8: the figure opens in the state its first button selects: the first
    button's visibility list is the list of the traces' initial [visible]
    flags, and its title is the layout's title. *)
Theorem initial_state_is_first_button (stats : list StatRow) (fig : Figure) :
  build_figure stats = Ok fig ->
  exists b0,
    ly_buttons (fig_layout fig) !! 0%nat = Some b0 /\
    bt_visible b0 = map tr_visible (fig_data fig) /\
    bt_title b0 = ly_title (fig_layout fig).
Proof.
  intros H.
  destruct (build_figure_inv stats fig H) as (Hd & HF & gene0 & Hg & Ht).
  assert (Hi : enumerate (take num_to_show (unique (map st_Geneid stats)))
               !! 0%nat = Some (0%nat, gene0)).
  { rewrite enumerate_lookup.
    rewrite lookup_take_lt by (unfold num_to_show; lia).
    rewrite Hg. reflexivity. }
  destruct (Forall2_lookup_l _ _ _ _ _ HF Hi) as (b0 & Hb0 & Hmk).
  exists b0. split; [exact Hb0|]. split.
  - destruct (make_button_spec _ _ _ _ Hmk) as (_ & Hlen & Hvis).
    apply list_eq. intros j. rewrite lookup_map.
    destruct (decide (j < length (fig_data fig))%nat) as [Hj|Hj].
    + rewrite (Hvis j Hj).
      destruct (lookup_lt_is_Some_2 (fig_data fig) j Hj) as [tr Htr].
      rewrite Htr. simpl. f_equal.
      rewrite Hd in Htr. rewrite (build_traces_visible _ _ _ _ Htr).
      apply bool_decide_ext. lia.
    + rewrite !lookup_ge_None_2 by lia. reflexivity.
  - rewrite Ht. apply (make_button_label_title _ _ _ Hmk).
Qed.

Lemma initial_state_is_first_button_witness :
  exists fig b0,
    build_figure two_gene_stats = Ok fig /\
    ly_buttons (fig_layout fig) !! 0%nat = Some b0 /\
    bt_visible b0 = map tr_visible (fig_data fig) /\
    bt_title b0 = ly_title (fig_layout fig).
Proof.
  eexists.
  destruct (initial_state_is_first_button two_gene_stats _ eq_refl)
    as (b0 & H).
  exists b0. split; [reflexivity | exact H].
Defined.

(** *** The genes shown *)

Lemma stat_leb_Geneid (a b : StatRow) :
  stat_leb a b = true -> String.compare (st_Geneid a) (st_Geneid b) <> Gt.
Proof.
  unfold stat_leb.
  destruct (String.compare (st_Geneid a) (st_Geneid b)); congruence.
Qed.

Lemma sorted_Geneid (l : list StatRow) :
  StronglySorted (fun a b => stat_leb a b = true) l ->
  StronglySorted (fun g h => String.compare g h <> Gt) (map st_Geneid l).
Proof.
  induction 1 as [|r l Hl IH Hr]; simpl; constructor; [exact IH|].
  apply List.Forall_forall. intros g Hg. apply in_map_iff in Hg.
  destruct Hg as (r' & <- & Hr'). rewrite List.Forall_forall in Hr.
  apply stat_leb_Geneid, Hr. exact Hr'.
Qed.

(** The distinct values of an ascending list are strictly ascending. *)
Lemma unique_strictly_sorted (l : list string) :
  StronglySorted (fun g h => String.compare g h <> Gt) l ->
  StronglySorted (fun g h => String.compare g h = Lt) (unique l).
Proof.
  unfold unique.
  induction 1 as [|g l Hl IH Hg]; cbn [unique_by]; constructor.
  - apply StronglySorted_filter. exact IH.
  - apply List.Forall_forall. intros h Hh. apply filter_In in Hh.
    destruct Hh as [Hin Hne].
    apply (proj1 (In_unique_by _ String.eqb_eq _ _)) in Hin.
    rewrite List.Forall_forall in Hg. specialize (Hg h Hin).
    destruct (String.compare g h) eqn:E; [|reflexivity|congruence].
    apply String.compare_eq_iff in E. subst h.
    rewrite String.eqb_refl in Hne. discriminate.
Qed.

Lemma StronglySorted_app_inv {A : Type} (R : A -> A -> Prop)
  (l1 l2 : list A) :
  StronglySorted R (l1 ++ l2) ->
  StronglySorted R l1 /\
  forall x y, In x l1 -> In y l2 -> R x y.
Proof.
  induction l1 as [|a l1 IH]; simpl; intros H.
  - split; [constructor | intros x y []].
  - inversion H as [|a' l' Hs Ha]; subst.
    destruct (IH Hs) as [Hs1 Hc]. split.
    + constructor; [exact Hs1|].
      rewrite List.Forall_forall in *. intros x Hx. apply Ha.
      apply in_or_app. left. exact Hx.
    + intros x y [<-|Hx] Hy.
      * rewrite List.Forall_forall in Ha. apply Ha.
        apply in_or_app. right. exact Hy.
      * apply Hc; assumption.
Qed.

(** X9: the genes shown are the first 200 in string order, not the most
    expressed ones: in the table of a run the genes shown are strictly
    ascending as Python compares strings, and every gene left out comes
    after every gene shown. *)
Theorem shown_genes_are_the_first_in_string_order (df : DataFrame)
  (stats : list StatRow) :
  sorted_stats df = Ok stats ->
  StronglySorted (fun g h => String.compare g h = Lt)
                 (take num_to_show (unique (map st_Geneid stats))) /\
  forall g h,
    In g (take num_to_show (unique (map st_Geneid stats))) ->
    In h (drop num_to_show (unique (map st_Geneid stats))) ->
    String.compare g h = Lt.
Proof.
  intros H. apply sorted_stats_inv in H.
  destruct H as (_ & stats0 & _ & ->).
  pose proof (unique_strictly_sorted _
                (sorted_Geneid _
                   (sort_by_sorted stat_leb stat_leb_total stat_leb_trans
                                   stats0))) as Hs.
  fold (sort_values stats0) in Hs.
  rewrite <- (take_drop num_to_show
                (unique (map st_Geneid (sort_values stats0)))) in Hs.
  apply StronglySorted_app_inv in Hs. exact Hs.
Qed.

Lemma shown_genes_are_the_first_in_string_order_witness :
  exists stats,
    sorted_stats replicate_frame = Ok stats /\
    StronglySorted (fun g h => String.compare g h = Lt)
                   (take num_to_show (unique (map st_Geneid stats))) /\
    forall g h,
      In g (take num_to_show (unique (map st_Geneid stats))) ->
      In h (drop num_to_show (unique (map st_Geneid stats))) ->
      String.compare g h = Lt.
Proof.
  eexists. split; [reflexivity|].
  apply (shown_genes_are_the_first_in_string_order replicate_frame).
  reflexivity.
Defined.

(* ================================================================== *)
(** ** How a run ends *)







Lemma zip_with_nil_r {A B C : Type} (f : A -> B -> C) (l : list A) :
  zip_with f l [] = [].
Proof. destruct l; reflexivity. Qed.


Section Endings.
Variable to_number : string -> option Q.
Variable to_html : Figure -> string.





End Endings.

(** X10: a run that raises has written nothing: whatever exception ends
    [generate_html_dashboard], the files are as they were before the call. *)
Theorem failing_run_writes_nothing
  (to_number : string -> option Q) (to_html : Figure -> string)
  (input_file output_html : string) (w w' : World) (e : exn) :
  generate_html_dashboard to_number to_html input_file output_html w =
    (Raise e, w') ->
  files w' = files w.
Proof.
  unfold generate_html_dashboard, read_csv, plot, mbind, M_bind, bind,
    print, read_text, write_text, lift.
  cbn [files stdout].
  destruct (files w !! input_file) as [text|]; [|intros [= _ <-]; reflexivity].
  destruct (parse_table text) as [raw|]; [|intros [= _ <-]; reflexivity].
  destruct (featureCounts_frame to_number raw) as [df|];
    [|intros [= _ <-]; reflexivity].
  destruct (melt _) as [rows|]; [|intros [= _ <-]; reflexivity].
  destruct (add_Day _) as [stats0|]; [|intros [= _ <-]; reflexivity].
  destruct (build_figure _) as [fig|]; [|intros [= _ <-]; reflexivity].
  discriminate.
Qed.

Lemma failing_run_writes_nothing_witness :
  files (snd (generate_html_dashboard integer_literal html_stub
                input_filename output_filename (world_with undated_text))) =
  files (world_with undated_text).
Proof.
  apply (failing_run_writes_nothing integer_literal html_stub
           input_filename output_filename (world_with undated_text) _
           ValueError).
  reflexivity.
Defined.







(** *** Text where a number is expected *)





(** *** One replicate per condition *)

Lemma filter_gene_at_most_one (G : list string) (vals : list R)
  (g : string) :
  List.NoDup G ->
  (length (List.filter (fun gv : string * R => String.eqb (fst gv) g)
                       (zip G vals)) <= 1)%nat.
Proof.
  intros H. revert vals.
  induction H as [|g' G Hnin _ IH]; intros [|v vals]; simpl; try lia.
  destruct (String.eqb_spec g' g) as [->|Hne]; [|apply IH].
  simpl.
  assert (Hnil : List.filter (fun gv : string * R => String.eqb (fst gv) g)
                             (zip G vals) = []).
  { destruct (List.filter _ _) as [|[g1 v1] rest] eqn:E; [reflexivity|].
    exfalso. apply Hnin.
    assert (Hin : In (g1, v1) (List.filter
                     (fun gv : string * R => String.eqb (fst gv) g)
                     (zip G vals))) by (rewrite E; left; reflexivity).
    apply filter_In in Hin. destruct Hin as [Hin Heq].
    apply String.eqb_eq in Heq. simpl in Heq. subst g1.
    apply list_elem_of_In, list_elem_of_lookup in Hin.
    destruct Hin as [i Hi]. rewrite lookup_zip_with in Hi.
    destruct (G !! i) as [g2|] eqn:EG; [|discriminate]. simpl in Hi.
    destruct (vals !! i); [|discriminate]. injection Hi as -> _.
    apply list_elem_of_In. eapply list_elem_of_lookup_2. exact EG. }
  rewrite Hnil. simpl. lia.
Qed.

Lemma spec_condition_values_at_most_one (t : Log2Frame) (g c : string) :
  List.NoDup (l2_Geneid t) ->
  List.NoDup (map (fun col : Column R => before_underscore (fst col))
                  (l2_samples t)) ->
  (length (spec_condition_values t g c) <= 1)%nat.
Proof.
  intros HG. unfold spec_condition_values.
  induction (l2_samples t) as [|col cols IH]; simpl; intros HC; [lia|].
  inversion HC as [|x xs Hnin Hrest]; subst.
  rewrite length_app.
  destruct (String.eqb_spec (before_underscore (fst col)) c) as [E|E].
  - assert (Hnil : flat_map
        (fun c0 : Column R =>
           if String.eqb (before_underscore (fst c0)) c
           then map snd (List.filter
                  (fun gv : string * R => String.eqb (fst gv) g)
                  (zip (l2_Geneid t) (snd c0)))
           else []) cols = []).
    { clear IH HC Hrest. induction cols as [|c1 cs IHc]; simpl;
        [reflexivity|].
      destruct (String.eqb_spec (before_underscore (fst c1)) c) as [E1|E1].
      - exfalso. apply Hnin. simpl. left. congruence.
      - simpl. apply IHc. intros Hin. apply Hnin. simpl. right. exact Hin. }
    rewrite Hnil, length_map. simpl.
    pose proof (filter_gene_at_most_one (l2_Geneid t) (snd col) g HG). lia.
  - simpl. apply IH. exact Hrest.
Qed.

(** X16: with distinct gene identifiers and one replicate per condition no
    standard deviation exists (pandas gives NaN), it is filled with 0, and
    the band has no width: the ribbon's [y] is the mean line followed by the
    mean line reversed. *)
Theorem single_replicate_ribbon_has_no_width (df : DataFrame)
  (stats : list StatRow) (i : nat) (gene : string) :
  List.NoDup (Geneid df) ->
  List.NoDup (map (fun col : Column Q => before_underscore (fst col))
                  (counts df)) ->
  sorted_stats df = Ok stats ->
  (forall r, In r stats -> st_std r = None) /\
  tr_y (ribbon_trace stats i gene) =
    (tr_y (mean_trace stats i gene) ++ rev (tr_y (mean_trace stats i gene)))%list.
Proof.
  intros HG HC Hs.
  assert (Hstd : forall r, In r stats -> st_std r = None).
  { intros r Hr.
    pose proof (sorted_stats_rows df stats r Hs Hr) as Hin.
    apply In_groupby_agg in Hin. destruct Hin as (_ & _ & Hstd).
    cbn [agg_of ag_std ag_Geneid ag_Condition] in Hstd.
    rewrite Hstd, group_values_spec. unfold sample_std.
    assert (Hlen : (length (spec_condition_values (calculate_log2_tpm df)
                              (st_Geneid r) (st_Condition r)) <= 1)%nat).
    { apply spec_condition_values_at_most_one; [exact HG|].
      replace (map (fun col : Column R => before_underscore (fst col))
                   (l2_samples (calculate_log2_tpm df)))
        with (map before_underscore
                  (map fst (l2_samples (calculate_log2_tpm df))))
        by (rewrite map_map; reflexivity).
      rewrite calculate_log2_tpm_labels, map_map. exact HC. }
    destruct (Nat.ltb_spec
                (length (spec_condition_values (calculate_log2_tpm df)
                           (st_Geneid r) (st_Condition r))) 2);
      [reflexivity | lia]. }
  split; [exact Hstd|].
  cbn [tr_y ribbon_trace mean_trace].
  assert (Hg : forall r, In r (gene_stats_of stats gene) ->
                         fillna0 (st_std r) = 0%R).
  { intros r Hr. unfold gene_stats_of in Hr. apply filter_In in Hr.
    rewrite (Hstd r) by tauto. reflexivity. }
  f_equal; [|f_equal]; apply map_ext_in; intros r Hr;
    rewrite (Hg r Hr); lra.
Qed.

Lemma single_replicate_ribbon_has_no_width_witness :
  exists stats,
    sorted_stats single_replicate_frame = Ok stats /\
    (forall r, In r stats -> st_std r = None) /\
    tr_y (ribbon_trace stats 0 "geneA") =
      (tr_y (mean_trace stats 0 "geneA")
         ++ rev (tr_y (mean_trace stats 0 "geneA")))%list.
Proof.
  eexists. split; [reflexivity|].
  apply (single_replicate_ribbon_has_no_width single_replicate_frame).
  - repeat constructor; simpl; intuition discriminate.
  - repeat constructor; simpl; intuition discriminate.
  - reflexivity.
Defined.
